(** * hockeygamebot: the game loop of app.py and the Team model of models/team.py

    A shallow embedding of [hockeygamebot/app.py] ([start_game_loop],
    [end_game_loop], [run]) and of [hockeygamebot/models/team.py]
    ([Team.__init__], the [goalie_pulled] property and
    [goalie_pulled_setter]), with the properties of the game loop
    proved over it. *)

From Stdlib Require Import ZArith Lia Floats.
From stdpp Require Import base option list strings gmap.

Set Warnings "-register-all".

Local Open Scope Z_scope.
Local Open Scope string_scope.
Local Open Scope list_scope.

(** ** Python values and exceptions *)

(** The values a parsed JSON document holds: [None], booleans, integers
    (unbounded, as Python's), floats (IEEE 754 binary64, as Python's),
    strings, lists and objects keyed by strings. *)
Inductive PyVal : Type :=
  | PyNone
  | PyBool (b : bool)
  | PyInt (z : Z)
  | PyFloat (f : float)
  | PyStr (s : string)
  | PyList (l : list PyVal)
  | PyDict (d : gmap string PyVal).

(** Classes of [Exception] the code names or can meet.  [FeedUnavailable]
    and [FeedMalformed] are the two ways the live-feed request fails
    (network or timeout; a response that cannot be parsed).  Every
    constructor is a subclass of Python's [Exception], so
    [except Exception] catches each of them. *)
Inductive PyExc : Type :=
  | KeyError
  | IndexError
  | TypeError
  | AttributeError
  | OverflowError
  | FeedUnavailable
  | FeedMalformed
  | OtherError (cls : string).

(** The result of a call: a value, or a raised exception. *)
Inductive Res (A : Type) : Type :=
  | Ok (a : A)
  | Err (e : PyExc).
Arguments Ok {A} a.
Arguments Err {A} e.

Module Py.

(** [s * n] on sequences: [n] copies, none when [n <= 0]. *)
Fixpoint str_repeat (n : nat) (s : string) : string :=
  match n with
  | O => ""
  | S k => s +:+ str_repeat k s
  end.

Fixpoint list_repeat (n : nat) (l : list PyVal) : list PyVal :=
  match n with
  | O => []
  | S k => l ++ list_repeat k l
  end.

(** The numbers: integers, booleans as integers, and floats. *)
Inductive Num : Type :=
  | NInt (z : Z)
  | NFloat (f : float).

Definition as_num (v : PyVal) : option Num :=
  match v with
  | PyInt z => Some (NInt z)
  | PyBool b => Some (NInt (if b then 1 else 0))
  | PyFloat f => Some (NFloat f)
  | _ => None
  end.

(** [float(z)]: the nearest float, ties to even; an integer too large for
    a float raises [OverflowError]. *)
Definition float_of_int (z : Z) : Res float :=
  match binary_normalize prec emax z 0 false with
  | S754_infinity _ => Err OverflowError
  | sf => Ok (SF2Prim sf)
  end.

Definition to_float (n : Num) : Res float :=
  match n with
  | NInt z => float_of_int z
  | NFloat f => Ok f
  end.

(** An arithmetic operator on two numbers: on integers when both are,
    on floats otherwise, the integer converted first. *)
Definition arith (iop : Z -> Z -> Z) (fop : float -> float -> float)
    (a b : Num) : Res PyVal :=
  match a, b with
  | NInt x, NInt y => Ok (PyInt (iop x y))
  | _, _ =>
      match to_float a with
      | Err e => Err e
      | Ok fa =>
          match to_float b with
          | Err e => Err e
          | Ok fb => Ok (PyFloat (fop fa fb))
          end
      end
  end.

(** A sequence repeated: [n * s] and [s * n] for an integer [n]. *)
Definition repeat_seq (n : Z) (s : PyVal) : Res PyVal :=
  match s with
  | PyStr t => Ok (PyStr (str_repeat (Z.to_nat n) t))
  | PyList l => Ok (PyList (list_repeat (Z.to_nat n) l))
  | _ => Err TypeError
  end.

(** The binary operator [a * b]. *)
Definition mul (a b : PyVal) : Res PyVal :=
  match as_num a, as_num b with
  | Some x, Some y => arith Z.mul PrimFloat.mul x y
  | Some (NInt n), None => repeat_seq n b
  | None, Some (NInt n) => repeat_seq n a
  | _, _ => Err TypeError
  end.

(** The binary operator [a + b]. *)
Definition add (a b : PyVal) : Res PyVal :=
  match as_num a, as_num b with
  | Some x, Some y => arith Z.add PrimFloat.add x y
  | _, _ =>
      match a, b with
      | PyStr s, PyStr t => Ok (PyStr (s +:+ t))
      | PyList l, PyList m => Ok (PyList (l ++ m))
      | _, _ => Err TypeError
      end
  end.

(** [d[k]] on a dict: the value, or [KeyError]. *)
Definition getitem (d : gmap string PyVal) (k : string) : Res PyVal :=
  match d !! k with
  | Some v => Ok v
  | None => Err KeyError
  end.

(** [v is True] and [v is False]: identity with the two singletons, so
    [1 is True] is false. *)
Definition is_True (v : PyVal) : bool :=
  match v with PyBool true => true | _ => false end.

Definition is_False (v : PyVal) : bool :=
  match v with PyBool false => true | _ => false end.

(** [v.get(k)]: only a dict has the method; a missing key gives [None]. *)
Definition get (v : PyVal) (k : string) : Res PyVal :=
  match v with
  | PyDict d => Ok (default PyNone (d !! k))
  | _ => Err AttributeError
  end.

(** The characters of a string, each a string of length one. *)
Fixpoint chars (s : string) : list PyVal :=
  match s with
  | EmptyString => []
  | String a t => PyStr (String a EmptyString) :: chars t
  end.

(** [for x in v]: the items of a list, the characters of a string, the
    keys of a dict (in the order of the map, which is not the order of
    insertion); the other values are not iterable. *)
Definition iter (v : PyVal) : Res (list PyVal) :=
  match v with
  | PyList l => Ok l
  | PyStr s => Ok (chars s)
  | PyDict d => Ok (PyStr <$> (map_to_list d).*1)
  | _ => Err TypeError
  end.

(** Lists and dicts cannot be keys of a dict. *)
Definition hashable (v : PyVal) : bool :=
  match v with
  | PyList _ | PyDict _ => false
  | _ => true
  end.

End Py.

(** ** Calls that change a state, raise, or leave the process *)

(** How a piece of Python code ends: it returns, it raises an exception of
    class [Exception], or it raises [SystemExit] through [sys.exit]
    ([SystemExit] derives from [BaseException], not from [Exception]). *)
Inductive Outcome (A : Type) : Type :=
  | Ret (a : A)
  | Raise (e : PyExc)
  | SysExit (code : option Z).
Arguments Ret {A} a.
Arguments Raise {A} e.
Arguments SysExit {A} code.

(** A computation over a state [S].  The state it leaves is kept whatever
    the outcome: what a call wrote before it raised stays written. *)
Definition M (S A : Type) : Type := S -> Outcome A * S.

Definition ret {S A} (a : A) : M S A := fun s => (Ret a, s).

Definition bind {S A B} (m : M S A) (k : A -> M S B) : M S B :=
  fun s =>
    match m s with
    | (Ret a, s') => k a s'
    | (Raise e, s') => (Raise e, s')
    | (SysExit c, s') => (SysExit c, s')
    end.

Definition raise {S A} (e : PyExc) : M S A := fun s => (Raise e, s).

(** [sys.exit(code)]; [sys.exit()] is [sys_exit None]. *)
Definition sys_exit {S A} (code : option Z) : M S A := fun s => (SysExit code, s).

(** The status the process ends with on [SystemExit]: [None] is success. *)
Definition exit_status (code : option Z) : Z :=
  match code with
  | None => 0
  | Some n => n
  end.

Definition get {S} : M S S := fun s => (Ret s, s).
Definition gets {S A} (f : S -> A) : M S A := fun s => (Ret (f s), s).
Definition modify {S} (f : S -> S) : M S unit := fun s => (Ret tt, f s).

(** A returned [Res] turned into the outcome of the call. *)
Definition of_res {S A} (r : Res A) : M S A :=
  match r with
  | Ok a => ret a
  | Err e => raise e
  end.

(** [try: m  except <classes accepted by handles>: h]. [SystemExit] passes. *)
Definition try_except {S A} (m : M S A) (handles : PyExc -> bool)
    (h : PyExc -> M S A) : M S A :=
  fun s =>
    match m s with
    | (Raise e, s') => if handles e then h e s' else (Raise e, s')
    | r => r
    end.

Declare Scope py_scope.
Delimit Scope py_scope with py.
Notation "x <- m ;; k" := (bind m (fun x => k))
  (at level 100, m at next level, right associativity) : py_scope.
Notation "m ;;; k" := (bind m (fun _ => k))
  (at level 100, right associativity) : py_scope.
Local Open Scope py_scope.

(** ** models/team.py *)

Module Team.

(** The four lead / trail strings [__init__] stores. *)
Record LeadTrail : Type := mkLeadTrail {
  lt_lead1P : string;
  lt_lead2P : string;
  lt_trail1P : string;
  lt_trail2P : string
}.

(** An instance of [Team]: its attributes after [__init__]. *)
Record t : Type := mkTeam {
  team_id : PyVal;
  team_name : PyVal;
  short_name : PyVal;
  tri_code : PyVal;
  home_away : string;
  tv_channel : PyVal;
  games : PyVal;
  record : gmap string PyVal;
  season : PyVal;
  skaters : Z;
  score : Z;
  shots : Z;
  power_play : bool;
  _goalie_pulled : PyVal;
  preferred : bool;
  goals : list PyVal;
  lines : gmap string PyVal;
  overridelines : bool;
  nss_gamelog : PyVal;
  gameday_roster : gmap string PyVal;
  wins : PyVal;
  losses : PyVal;
  ot : PyVal;
  points : PyVal;
  lead_trail_lead1P : string;
  lead_trail_lead2P : string;
  lead_trail_trail1P : string;
  lead_trail_trail2P : string;
  team_stats : PyVal;
  rank_stats : PyVal;
  roster : PyVal
}.

(** The requests [__init__] and [from_json] send to other modules
    ([nhlapi], [utils], [GameType]); [Ext] is the world outside the
    process.  Each of the three requests stands for the body of one
    [try] block of [__init__]: building the URL, [nhl_api(...).json()]
    and picking the entries out of the answer. *)
Record Api (Ext : Type) : Type := mkApi {
  lead_trail_request : PyVal -> PyVal -> Ext -> Res LeadTrail * Ext;
  team_stats_request : PyVal -> Ext -> Res (PyVal * PyVal) * Ext;
  roster_request : PyVal -> Ext -> Res PyVal * Ext;
  get_broadcasts : PyVal -> Res (gmap string PyVal);
  playoffs_or_preseason : PyVal -> bool
}.
Arguments lead_trail_request {Ext} _.
Arguments team_stats_request {Ext} _.
Arguments roster_request {Ext} _.
Arguments get_broadcasts {Ext} _.
Arguments playoffs_or_preseason {Ext} _.

(** [try: self.ot = record["ot"]  except KeyError: self.ot = None] *)
Definition record_ot (record : gmap string PyVal) : PyVal :=
  match Py.getitem record "ot" with
  | Ok v => v
  | Err _ => PyNone
  end.

(** [(2 * self.wins) + self.ot] *)
Definition calc_points (wins ot : PyVal) : Res PyVal :=
  match Py.mul (PyInt 2) wins with
  | Ok w2 => Py.add w2 ot
  | Err e => Err e
  end.

(** [except (IndexError, KeyError)] *)
Definition index_or_key (e : PyExc) : bool :=
  match e with
  | IndexError | KeyError => true
  | _ => false
  end.

Definition na : string := "N/A".
Definition na3 : string := "N/A-N/A-N/A".

Section Init.
Context {Ext : Type} (api : Api Ext).

Definition request {A} (c : Ext -> Res A * Ext) : M Ext A :=
  fun x => match c x with
           | (Ok a, x') => (Ret a, x')
           | (Err e, x') => (Raise e, x')
           end.

(** [Team.__init__] *)
Definition __init__ (team_id team_name short_name tri_code : PyVal)
    (home_away : string) (tv_channel games : PyVal)
    (record : gmap string PyVal) (season : PyVal) : M Ext t :=
  wins <- of_res (Py.getitem record "wins") ;;
  losses <- of_res (Py.getitem record "losses") ;;
  let ot := record_ot record in
  points <- of_res (calc_points wins ot) ;;
  lt <- try_except (request (lead_trail_request api season team_id))
          index_or_key (fun _ => ret (mkLeadTrail na3 na3 na3 na3)) ;;
  stats <- try_except (request (team_stats_request api team_id))
          index_or_key (fun _ => ret (PyStr na, PyStr na)) ;;
  roster <- try_except (request (roster_request api team_id))
          index_or_key (fun _ => ret (PyStr na)) ;;
  ret {| team_id := team_id; team_name := team_name;
         short_name := short_name; tri_code := tri_code;
         home_away := home_away; tv_channel := tv_channel;
         games := games; record := record; season := season;
         skaters := 5; score := 0; shots := 0; power_play := false;
         _goalie_pulled := PyBool false; preferred := false;
         goals := []; lines := ∅; overridelines := false;
         nss_gamelog := PyNone; gameday_roster := ∅;
         wins := wins; losses := losses; ot := ot; points := points;
         lead_trail_lead1P := lt_lead1P lt;
         lead_trail_lead2P := lt_lead2P lt;
         lead_trail_trail1P := lt_trail1P lt;
         lead_trail_trail2P := lt_trail2P lt;
         team_stats := stats.1; rank_stats := stats.2;
         roster := roster |}.

(** [d[k]] on any value: only a dict can be indexed by a string. *)
Definition index (v : PyVal) (k : string) : Res PyVal :=
  match v with
  | PyDict d => Py.getitem d k
  | _ => Err TypeError
  end.

Definition res_bind {A B} (r : Res A) (k : A -> Res B) : Res B :=
  match r with
  | Ok a => k a
  | Err e => Err e
  end.

(** The [games] count of [from_json]: wins and losses, and the
    overtime losses outside the playoffs and the preseason. *)
Definition from_json_games (resp : PyVal) (record : PyVal) : Res PyVal :=
  res_bind (index resp "gameType") (fun gt =>
  if playoffs_or_preseason api gt then
    res_bind (index record "wins") (fun w =>
    res_bind (index record "losses") (fun l => Py.add w l))
  else
    res_bind (index record "wins") (fun w =>
    res_bind (index record "losses") (fun l =>
    res_bind (Py.add w l) (fun wl =>
    res_bind (index record "ot") (fun o => Py.add wl o))))).

(** [Team.from_json] *)
Definition from_json (resp : PyVal) (homeaway : string) : M Ext t :=
  broadcasts <- of_res (get_broadcasts api resp) ;;
  teams <- of_res (index resp "teams") ;;
  side <- of_res (index teams homeaway) ;;
  team <- of_res (index side "team") ;;
  let channel := broadcasts !! homeaway in
  record <- of_res (index side "leagueRecord") ;;
  games <- of_res (from_json_games resp record) ;;
  id <- of_res (index team "id") ;;
  name <- of_res (index team "name") ;;
  teamName <- of_res (index team "teamName") ;;
  abbreviation <- of_res (index team "abbreviation") ;;
  season <- of_res (index resp "season") ;;
  match record with
  | PyDict rec =>
      __init__ id name teamName abbreviation homeaway
        (match channel with
         | Some PyNone | None => PyStr na
         | Some c => c
         end)
        games rec season
  | _ => raise TypeError
  end.

End Init.

(** The property [goalie_pulled]: the getter. *)
Definition goalie_pulled (self : t) : PyVal := _goalie_pulled self.

Definition set__goalie_pulled (v : PyVal) (self : t) : t :=
  {| team_id := team_id self; team_name := team_name self;
     short_name := short_name self; tri_code := tri_code self;
     home_away := home_away self; tv_channel := tv_channel self;
     games := games self; record := record self; season := season self;
     skaters := skaters self; score := score self; shots := shots self;
     power_play := power_play self;
     _goalie_pulled := v;
     preferred := preferred self; goals := goals self;
     lines := lines self; overridelines := overridelines self;
     nss_gamelog := nss_gamelog self;
     gameday_roster := gameday_roster self;
     wins := wins self; losses := losses self; ot := ot self;
     points := points self;
     lead_trail_lead1P := lead_trail_lead1P self;
     lead_trail_lead2P := lead_trail_lead2P self;
     lead_trail_trail1P := lead_trail_trail1P self;
     lead_trail_trail2P := lead_trail_trail2P self;
     team_stats := team_stats self; rank_stats := rank_stats self;
     roster := roster self |}.

(** [goalie_pulled_setter(self, new_value)]: the value returned and the
    object as the call leaves it. *)
Definition goalie_pulled_setter (self : t) (new_value : PyVal) : bool * t :=
  let old_value := goalie_pulled self in
  let self' := set__goalie_pulled new_value self in
  (Py.is_True new_value && Py.is_False old_value, self').

Definition set_overridelines (b : bool) (self : t) : t :=
  {| team_id := team_id self; team_name := team_name self;
     short_name := short_name self; tri_code := tri_code self;
     home_away := home_away self; tv_channel := tv_channel self;
     games := games self; record := record self; season := season self;
     skaters := skaters self; score := score self; shots := shots self;
     power_play := power_play self;
     _goalie_pulled := _goalie_pulled self;
     preferred := preferred self; goals := goals self;
     lines := lines self; overridelines := b;
     nss_gamelog := nss_gamelog self;
     gameday_roster := gameday_roster self;
     wins := wins self; losses := losses self; ot := ot self;
     points := points self;
     lead_trail_lead1P := lead_trail_lead1P self;
     lead_trail_lead2P := lead_trail_lead2P self;
     lead_trail_trail1P := lead_trail_trail1P self;
     lead_trail_trail2P := lead_trail_trail2P self;
     team_stats := team_stats self; rank_stats := rank_stats self;
     roster := roster self |}.

Definition set_preferred (b : bool) (self : t) : t :=
  {| team_id := team_id self; team_name := team_name self;
     short_name := short_name self; tri_code := tri_code self;
     home_away := home_away self; tv_channel := tv_channel self;
     games := games self; record := record self; season := season self;
     skaters := skaters self; score := score self; shots := shots self;
     power_play := power_play self;
     _goalie_pulled := _goalie_pulled self;
     preferred := b; goals := goals self;
     lines := lines self; overridelines := overridelines self;
     nss_gamelog := nss_gamelog self;
     gameday_roster := gameday_roster self;
     wins := wins self; losses := losses self; ot := ot self;
     points := points self;
     lead_trail_lead1P := lead_trail_lead1P self;
     lead_trail_lead2P := lead_trail_lead2P self;
     lead_trail_trail1P := lead_trail_trail1P self;
     lead_trail_trail2P := lead_trail_trail2P self;
     team_stats := team_stats self; rank_stats := rank_stats self;
     roster := roster self |}.

(** [self.wins], [self.losses] and [self.ot] written. *)
Definition set_record_fields (w l o : PyVal) (self : t) : t :=
  {| team_id := team_id self; team_name := team_name self;
     short_name := short_name self; tri_code := tri_code self;
     home_away := home_away self; tv_channel := tv_channel self;
     games := games self; record := record self; season := season self;
     skaters := skaters self; score := score self; shots := shots self;
     power_play := power_play self;
     _goalie_pulled := _goalie_pulled self;
     preferred := preferred self; goals := goals self;
     lines := lines self; overridelines := overridelines self;
     nss_gamelog := nss_gamelog self;
     gameday_roster := gameday_roster self;
     wins := w; losses := l; ot := o;
     points := points self;
     lead_trail_lead1P := lead_trail_lead1P self;
     lead_trail_lead2P := lead_trail_lead2P self;
     lead_trail_trail1P := lead_trail_trail1P self;
     lead_trail_trail2P := lead_trail_trail2P self;
     team_stats := team_stats self; rank_stats := rank_stats self;
     roster := roster self |}.

(** [outcome == "..."] for a string literal. *)
Definition outcome_is (outcome : PyVal) (s : string) : bool :=
  match outcome with
  | PyStr o => bool_decide (o = s)
  | _ => false
  end.

(** [get_new_points(self, outcome)] *)
Definition get_new_points (self : t) (outcome : PyVal) : Res PyVal :=
  let current_points := points self in
  if outcome_is outcome "win" then Py.add current_points (PyInt 2)
  else if outcome_is outcome "loss" then Py.add current_points (PyInt 0)
  else if outcome_is outcome "ot" then Py.add current_points (PyInt 1)
  else Ok current_points.

Section Formatting.
(** Python's built-in [str], as [format] applies it to a value. *)
Context (str_ : PyVal -> string).

(** The property [current_record]. *)
Definition current_record (self : t) : string :=
  str_ (wins self) +:+ "-" +:+ str_ (losses self) +:+ "-" +:+ str_ (ot self).

(** [get_new_record(self, outcome)]: the record is updated in place. *)
Definition get_new_record (outcome : PyVal) : M t string :=
  self <- get ;;
  (if outcome_is outcome "win" then
     w <- of_res (Py.add (wins self) (PyInt 1)) ;;
     modify (set_record_fields w (losses self) (ot self))
   else if outcome_is outcome "loss" then
     l <- of_res (Py.add (losses self) (PyInt 1)) ;;
     modify (set_record_fields (wins self) l (ot self))
   else if outcome_is outcome "ot" then
     o <- of_res (Py.add (ot self) (PyInt 1)) ;;
     modify (set_record_fields (wins self) (losses self) o)
   else ret tt) ;;;
  self <- get ;;
  ret (str_ (wins self) +:+ " - " +:+ str_ (losses self) +:+ " - "
       +:+ str_ (ot self)).

(** [get_new_playoff_series(self, outcome)] *)
Definition get_new_playoff_series (outcome : PyVal) : M t string :=
  self <- get ;;
  (if outcome_is outcome "win" then
     w <- of_res (Py.add (wins self) (PyInt 1)) ;;
     modify (set_record_fields w (losses self) (ot self))
   else if outcome_is outcome "loss" then
     l <- of_res (Py.add (losses self) (PyInt 1)) ;;
     modify (set_record_fields (wins self) l (ot self))
   else ret tt) ;;;
  self <- get ;;
  ret ("(" +:+ str_ (wins self) +:+ " - " +:+ str_ (losses self) +:+ ")").

End Formatting.

(** [get_stat_and_rank(self, attr)] *)
Definition get_stat_and_rank (self : t) (attr : string) : Res (PyVal * PyVal) :=
  res_bind (index (team_stats self) attr) (fun stat =>
  res_bind (index (rank_stats self) attr) (fun rank =>
  Ok (stat, rank))).

Section Roster.
(** Python's equality of two keys of a dict. *)
Context (key_eqb : PyVal -> PyVal -> bool).

(** [d[k] = v] on a dict under construction, kept in the order of
    insertion: a key that is there keeps its place, a new one goes last. *)
Definition dict_set {V} (d : list (PyVal * V)) (k : PyVal) (v : V)
    : Res (list (PyVal * V)) :=
  if Py.hashable k then
    Ok (if existsb (fun p => key_eqb p.1 k) d
        then map (fun p => if key_eqb p.1 k then (p.1, v) else p) d
        else d ++ [(k, v)])
  else Err TypeError.

(** The body of the loop of [roster_dict_by_name]. *)
Definition by_name_step (roster_dict : list (PyVal * gmap string PyVal))
    (player : PyVal) : Res (list (PyVal * gmap string PyVal)) :=
  res_bind (Py.get player "person") (fun person =>
  res_bind (Py.get person "id") (fun id =>
  res_bind (Py.get person "fullName") (fun name =>
  res_bind (Py.get player "jerseyNumber") (fun number =>
  dict_set roster_dict name {[ "id" := id; "jerseyNumber" := number ]})))).

(** The body of the loop of [roster_dict_by_number]. *)
Definition by_number_step (roster_dict : list (PyVal * gmap string PyVal))
    (player : PyVal) : Res (list (PyVal * gmap string PyVal)) :=
  res_bind (Py.get player "person") (fun person =>
  res_bind (Py.get person "id") (fun id =>
  res_bind (Py.get person "fullName") (fun name =>
  res_bind (Py.get player "jerseyNumber") (fun number =>
  dict_set roster_dict number {[ "id" := id; "name" := name ]})))).

(** [for player in players: ...], stopped by the first exception. *)
Fixpoint for_each {D} (step : D -> PyVal -> Res D) (d : D)
    (players : list PyVal) : Res D :=
  match players with
  | [] => Ok d
  | player :: rest =>
      match step d player with
      | Ok d' => for_each step d' rest
      | Err e => Err e
      end
  end.

(** The property [roster_dict_by_name]. *)
Definition roster_dict_by_name (self : t)
    : Res (list (PyVal * gmap string PyVal)) :=
  res_bind (Py.iter (roster self)) (for_each by_name_step []).

(** The property [roster_dict_by_number]. *)
Definition roster_dict_by_number (self : t)
    : Res (list (PyVal * gmap string PyVal)) :=
  res_bind (Py.iter (roster self)) (for_each by_number_step []).

End Roster.

End Team.

(** ** The game state, the game and its ledgers *)

(** The phases the loop tells apart. *)
Inductive Phase : Type := PREVIEW | LIVE | FINAL | UNKNOWN.

(** Modelled from the spec: [models/gamestate.py], with the [GameState]
    class that [start_game_loop] calls on the feed's state tag, is not part
    of the sources at hand.  The classifier is pure and total, maps the
    tags of the three known phases to them and defaults to Unknown for any
    unrecognized tag. *)
Definition GameState (tag : string) : Phase :=
  if decide (tag = "Preview") then PREVIEW
  else if decide (tag = "Live") then LIVE
  else if decide (tag = "Final") then FINAL
  else UNKNOWN.

(** Modelled from the spec: [game.final_socials] is an object of
    [models/game.py], which is not part of the sources at hand.  The ledger
    holds one sent flag per notification kind, a retry counter and a
    maximum-retries threshold. *)
Record FinalSocials : Type := mkFinalSocials {
  socials : gmap string bool;
  retry_count : Z;
  max_retries : Z
}.

(** Modelled from the spec: the property [all_social_sent] of the missing
    [models/game.py]: the ledger is fully sent. *)
Definition all_social_sent (fs : FinalSocials) : bool :=
  bool_decide (map_Forall (fun _ b => b = true) (socials fs)).

(** Modelled from the spec: the property [retries_exeeded] of the missing
    [models/game.py]: retries >= max. *)
Definition retries_exeeded (fs : FinalSocials) : bool :=
  bool_decide (max_retries fs <= retry_count fs).

(** Modelled from the spec: the class [Game] of the missing
    [models/game.py], as the attributes [app.py] reads and writes: the
    event identifier, the state tag the feed reported, the countdown to the
    start, the last processed event index, the pregame ledger, the final
    ledger and the two teams. *)
Record Game : Type := mkGame {
  game_id : Z;
  game_state : string;
  game_time_countdown : Z;
  last_event_idx : Z;
  pregametweets : gmap string bool;
  final_socials : FinalSocials;
  preferred_team : Team.t;
  other_team : Team.t
}.

(** [game.final_socials.retry_count += 1] *)
Definition incr_retry_count (g : Game) : Game :=
  {| game_id := game_id g;
     game_state := game_state g;
     game_time_countdown := game_time_countdown g;
     last_event_idx := last_event_idx g;
     pregametweets := pregametweets g;
     final_socials :=
       {| socials := socials (final_socials g);
          retry_count := retry_count (final_socials g) + 1;
          max_retries := max_retries (final_socials g) |};
     preferred_team := preferred_team g;
     other_team := other_team g |}.

(** ** What the process does that can be observed *)

Inductive LogLevel : Type := DEBUG | INFO | WARNING | ERROR.

(** The functions of other modules the loop calls. *)
Inductive Callee : Type :=
  | call_get_livefeed
  | call_update_game
  | call_generate_game_preview
  | call_game_preview_others
  | call_live_loop
  | call_final_score
  | call_three_stars
  | call_nst_linetool.

Inductive Event : Type :=
  | EvLog (lvl : LogLevel)
  | EvSleep (secs : N)
  | EvCall (f : Callee).

(** The [script] section of the configuration: the three sleep times, in
    seconds ([time.sleep] takes no negative duration). *)
Record Config : Type := mkConfig {
  pregame_sleep_time : N;
  live_sleep_time : N;
  final_sleep_time : N
}.

(** The world outside the process ([Ext]: the feed, the clock, the
    platforms posted to) and the chronological list of what the process
    did. *)
Record Sys (Ext : Type) : Type := mkSys {
  ext : Ext;
  trace : list Event
}.
Arguments mkSys {Ext} ext trace.
Arguments ext {Ext} s.
Arguments trace {Ext} s.

(** The state of the loop: the one [Game] object, shared with every
    function it is passed to, and the rest. *)
Definition World (Ext : Type) : Type := (Game * Sys Ext)%type.

(** The functions of the other modules of the bot, as far as the loop
    sees them.  A function that is passed the game may change it, whether
    it returns or raises; [get_livefeed] is passed the identifier only.
    The sleep time [game_preview_others] returns is a duration. *)
Record Collab (Ext : Type) : Type := mkCollab {
  get_livefeed : Z -> Ext -> Res PyVal * Ext;
  update_game : PyVal -> Game -> Ext -> Res unit * (Game * Ext);
  generate_game_preview : Game -> Ext -> Res unit * (Game * Ext);
  game_preview_others : Game -> Ext -> Res N * (Game * Ext);
  live_loop : PyVal -> Game -> Ext -> Res unit * (Game * Ext);
  final_score : PyVal -> Game -> Ext -> Res unit * (Game * Ext);
  three_stars : PyVal -> Game -> Ext -> Res unit * (Game * Ext);
  nst_linetool : Game -> Team.t -> Ext -> Res unit * (Game * Ext)
}.
Arguments get_livefeed {Ext} _.
Arguments update_game {Ext} _.
Arguments generate_game_preview {Ext} _.
Arguments game_preview_others {Ext} _.
Arguments live_loop {Ext} _.
Arguments final_score {Ext} _.
Arguments three_stars {Ext} _.
Arguments nst_linetool {Ext} _.

(** ** app.py: the game loop *)

Section GameLoop.
Context {Ext : Type} (config : Config) (c : Collab Ext).

Definition record_event (ev : Event) (w : World Ext) : World Ext :=
  (w.1, mkSys (ext w.2) (trace w.2 ++ [ev])).

(** [logging.<level>(...)] *)
Definition log (lvl : LogLevel) : M (World Ext) unit :=
  modify (record_event (EvLog lvl)).

(** [time.sleep(secs)] *)
Definition time_sleep (secs : N) : M (World Ext) unit :=
  modify (record_event (EvSleep secs)).

(** A call of a function that is not passed the game. *)
Definition call_ext {A} (name : Callee) (f : Ext -> Res A * Ext)
    : M (World Ext) A :=
  fun w =>
    let '(r, x') := f (ext w.2) in
    of_res r (w.1, mkSys x' (trace w.2 ++ [EvCall name])).

(** A call of a function that is passed the game. *)
Definition call_game {A} (name : Callee)
    (f : Game -> Ext -> Res A * (Game * Ext)) : M (World Ext) A :=
  fun w =>
    let '(r, (g', x')) := f w.1 (ext w.2) in
    of_res r (g', mkSys x' (trace w.2 ++ [EvCall name])).

(** [except Exception] *)
Definition any_Exception (e : PyExc) : bool := true.

(** [game.pregametweets["core"]] *)
Definition pregametweets_core (g : Game) : Res bool :=
  match pregametweets g !! "core" with
  | Some b => Ok b
  | None => Err KeyError
  end.

(** [end_game_loop] *)
Definition end_game_loop : M (World Ext) unit :=
  log INFO ;;;
  log INFO ;;;
  log INFO ;;;
  log INFO ;;;
  log INFO ;;;
  sys_exit None.

(** [livefeed.get_livefeed(game.game_id)] *)
Definition fetch_livefeed (g : Game) : M (World Ext) PyVal :=
  call_ext call_get_livefeed (get_livefeed c (game_id g)).

(** The branch [GameState.PREVIEW] (lines 44-62). *)
Definition preview_branch (g : Game) : M (World Ext) unit :=
  if (0 <? game_time_countdown g)%Z then
    log INFO ;;;
    core <- of_res (pregametweets_core g) ;;
    (if negb core
     then call_game call_generate_game_preview (generate_game_preview c)
     else ret tt) ;;;
    sleep_time <- call_game call_game_preview_others (game_preview_others c) ;;
    time_sleep sleep_time
  else
    log INFO ;;;
    livefeed_resp <- fetch_livefeed g ;;
    call_game call_update_game (update_game c livefeed_resp) ;;;
    time_sleep (pregame_sleep_time config).

(** The body of [try] in the branch [GameState.LIVE] (lines 66-76). *)
Definition live_try (g : Game) : M (World Ext) unit :=
  log INFO ;;;
  log INFO ;;;
  livefeed_resp <- fetch_livefeed g ;;
  call_game call_live_loop (live_loop c livefeed_resp) ;;;
  call_game call_update_game (update_game c livefeed_resp) ;;;
  log INFO.

(** [except Exception as error] in the branch [GameState.LIVE]
    (lines 77-81). *)
Definition live_except (error : PyExc) : M (World Ext) unit :=
  log ERROR ;;;
  log ERROR.

(** The branch [GameState.LIVE] (lines 64-83). *)
Definition live_branch (g : Game) : M (World Ext) unit :=
  try_except (live_try g) any_Exception live_except ;;;
  time_sleep (live_sleep_time config).

(** The head of the branch [GameState.FINAL]: the feed is read, the game
    updated and all end of game functions run (lines 86-96). *)
Definition final_functions (g : Game) : M (World Ext) unit :=
  log INFO ;;;
  livefeed_resp <- fetch_livefeed g ;;
  call_game call_update_game (update_game c livefeed_resp) ;;;
  call_game call_final_score (final_score c livefeed_resp) ;;;
  call_game call_three_stars (three_stars c livefeed_resp) ;;;
  g1 <- gets fst ;;
  call_game call_nst_linetool (fun g' => nst_linetool c g' (preferred_team g1)).

(** The branch [GameState.FINAL] (lines 85-110). *)
Definition final_branch (g : Game) : M (World Ext) unit :=
  final_functions g ;;;
  g2 <- gets fst ;;
  (if all_social_sent (final_socials g2) || retries_exeeded (final_socials g2)
   then log INFO ;;; end_game_loop
   else ret tt) ;;;
  log INFO ;;;
  modify (fun w => (incr_retry_count w.1, w.2)) ;;;
  time_sleep (final_sleep_time config).

(** The branch [else] (lines 112-116). *)
Definition unknown_branch : M (World Ext) unit :=
  log WARNING ;;;
  time_sleep (live_sleep_time config).

(** One pass through the body of [while True] in [start_game_loop]. *)
Definition loop_body : M (World Ext) unit :=
  g <- gets fst ;;
  match GameState (game_state g) with
  | PREVIEW => preview_branch g
  | LIVE => live_branch g
  | FINAL => final_branch g
  | UNKNOWN => unknown_branch
  end.

(** [start_game_loop]: [while True], cut after [fuel] passes.  [Ret tt]
    says that the loop is still running after them. *)
Fixpoint start_game_loop (fuel : nat) : M (World Ext) unit :=
  match fuel with
  | O => ret tt
  | S n => loop_body ;;; start_game_loop n
  end.

End GameLoop.

(** ** app.py: the script runner *)

(** The command-line arguments [run] branches on. *)
Record Args : Type := mkArgs {
  args_date : option string;
  args_docker : bool;
  args_overridelines : bool
}.

(** What [utils.load_config()] returns, as the script reads it: the whole
    document, in which [run] looks up [config["default"]["team_name"]], and
    its [script] section, whose sleep times the loop reads. *)
Record Settings : Type := mkSettings {
  document : PyVal;
  script : Config
}.

(** The functions of other modules the script calls before the loop: the
    configuration loader, the command-line parser, the logging setup, the
    date parser, the clock, the schedule, the [Game] constructor and the
    roster update.  Each call may return, raise, or end the process with a
    [SystemExit] of its own (a command-line parser does on arguments it
    cannot read); the clock only returns.  The roster update is passed the
    game and may change it. *)
Record Startup (Ext : Type) : Type := mkStartup {
  load_config : M Ext Settings;
  get_arguments : M Ext Args;
  setup_logging : M Ext unit;
  date_parser : string -> M Ext PyVal;
  datetime_now : Ext -> PyVal * Ext;
  is_game_today : Z -> PyVal -> M Ext (bool * PyVal);
  from_json_and_teams : PyVal -> Team.t -> Team.t -> M Ext Game;
  gameday_roster_update : M (Game * Ext) unit
}.
Arguments load_config {Ext} _.
Arguments get_arguments {Ext} _.
Arguments setup_logging {Ext} _.
Arguments date_parser {Ext} _.
Arguments datetime_now {Ext} _.
Arguments is_game_today {Ext} _.
Arguments from_json_and_teams {Ext} _.
Arguments gameday_roster_update {Ext} _.

Section Run.
Context {Ext : Type}.

(** [a == b] on Python values, taken as given. *)
Context (py_eq : PyVal -> PyVal -> bool).
Context (api : Team.Api Ext) (st : Startup Ext).

Definition slog (lvl : LogLevel) : M (Sys Ext) unit :=
  modify (fun s => mkSys (ext s) (trace s ++ [EvLog lvl])).

(** A call that touches the outside world only. *)
Definition on_ext {A} (m : M Ext A) : M (Sys Ext) A :=
  fun s =>
    let '(o, x') := m (ext s) in (o, mkSys x' (trace s)).

(** A call that is passed the game and touches the outside world. *)
Definition on_game (m : M (Game * Ext) unit) (game : Game) : M (Sys Ext) Game :=
  fun s =>
    let '(o, (g', x')) := m (game, ext s) in
    (match o with
     | Ret _ => Ret g'
     | Raise e => Raise e
     | SysExit code => SysExit code
     end, mkSys x' (trace s)).

(** [bool(team.team_name == team_name)] *)
Definition is_preferred (team_name : PyVal) (tm : Team.t) : bool :=
  py_eq (Team.team_name tm) team_name.

(** [config["default"]["team_name"]] *)
Definition config_team_name (config : Settings) : Res PyVal :=
  Team.res_bind (Team.index (document config) "default")
    (fun default => Team.index default "team_name").

(** The head of [run]: the configuration and the arguments are read, the
    logging is set up, the team name is looked up, the start of the script
    is logged and the date to look up is worked out (lines 141-180).  It
    returns the team name, the arguments and the date. *)
Definition run_date : M (Sys Ext) (PyVal * Args * PyVal) :=
  config <- on_ext (load_config st) ;;
  args <- on_ext (get_arguments st) ;;
  on_ext (setup_logging st) ;;;
  team_name <- of_res (config_team_name config) ;;
  slog INFO ;;;
  slog INFO ;;;
  (if args_docker args then slog INFO else ret tt) ;;;
  slog INFO ;;;
  slog INFO ;;;
  slog INFO ;;;
  slog INFO ;;;
  slog INFO ;;;
  date <- match args_date args with
          | Some (String a d) => on_ext (date_parser st (String a d))
          | Some "" | None =>
              on_ext (fun x => let '(d, x') := datetime_now st x in (Ret d, x'))
          end ;;
  ret (team_name, args, date).

(** The tail of [run]: the teams and the game are created (lines 186-214). *)
Definition run_game (team_name : PyVal) (args : Args) (game_info : PyVal)
    : M (Sys Ext) Game :=
  slog DEBUG ;;;
  away_team <- on_ext (Team.from_json api game_info "away") ;;
  home_team <- on_ext (Team.from_json api game_info "home") ;;
  let home_team :=
    if args_overridelines args then Team.set_overridelines true home_team
    else home_team in
  let away_team :=
    if args_overridelines args then Team.set_overridelines true away_team
    else away_team in
  let home_team :=
    Team.set_preferred (is_preferred team_name home_team) home_team in
  let away_team :=
    Team.set_preferred (is_preferred team_name away_team) away_team in
  game <- on_ext (from_json_and_teams st game_info home_team away_team) ;;
  on_game (gameday_roster_update st) game.

(** [run] *)
Definition run : M (Sys Ext) Game :=
  started <- run_date ;;
  today <- on_ext (is_game_today st 1 started.2) ;;
  if negb today.1 then sys_exit None
  else run_game started.1.1 started.1.2 today.2.

(** The script (lines 217-222): [game = run()], then
    [start_game_loop(game)], which loads the configuration (line 37) and
    enters the loop. *)
Definition main (c : Collab Ext) (fuel : nat) : M (Sys Ext) unit :=
  game <- run ;;
  config <- on_ext (load_config st) ;;
  fun s =>
    let '(o, w) := start_game_loop (script config) c fuel (game, s) in (o, w.2).

End Run.

(** * The vocabulary of the properties *)

(** Two [Team] objects that agree on every attribute but [_goalie_pulled]. *)
Definition same_but_goalie_pulled (a b : Team.t) : Prop :=
  Team.team_id a = Team.team_id b /\
  Team.team_name a = Team.team_name b /\
  Team.short_name a = Team.short_name b /\
  Team.tri_code a = Team.tri_code b /\
  Team.home_away a = Team.home_away b /\
  Team.tv_channel a = Team.tv_channel b /\
  Team.games a = Team.games b /\
  Team.record a = Team.record b /\
  Team.season a = Team.season b /\
  Team.skaters a = Team.skaters b /\
  Team.score a = Team.score b /\
  Team.shots a = Team.shots b /\
  Team.power_play a = Team.power_play b /\
  Team.preferred a = Team.preferred b /\
  Team.goals a = Team.goals b /\
  Team.lines a = Team.lines b /\
  Team.overridelines a = Team.overridelines b /\
  Team.nss_gamelog a = Team.nss_gamelog b /\
  Team.gameday_roster a = Team.gameday_roster b /\
  Team.wins a = Team.wins b /\
  Team.losses a = Team.losses b /\
  Team.ot a = Team.ot b /\
  Team.points a = Team.points b /\
  Team.lead_trail_lead1P a = Team.lead_trail_lead1P b /\
  Team.lead_trail_lead2P a = Team.lead_trail_lead2P b /\
  Team.lead_trail_trail1P a = Team.lead_trail_trail1P b /\
  Team.lead_trail_trail2P a = Team.lead_trail_trail2P b /\
  Team.team_stats a = Team.team_stats b /\
  Team.rank_stats a = Team.rank_stats b /\
  Team.roster a = Team.roster b.

(** ** Teams *)

(** [resp["teams"][homeaway]["leagueRecord"]] *)
Definition league_record (resp : PyVal) (homeaway : string) : Res PyVal :=
  Team.res_bind (Team.index resp "teams") (fun teams =>
  Team.res_bind (Team.index teams homeaway) (fun side =>
  Team.index side "leagueRecord")).

(** A roster entry the roster dictionaries can be built from: a dict whose
    ["person"] is a dict. *)
Definition roster_entry (player : PyVal) : Prop :=
  exists (dp dperson : gmap string PyVal),
    player = PyDict dp /\ dp !! "person" = Some (PyDict dperson).

(** The full name of a roster entry, [None] when it has none. *)
Definition full_name (player : PyVal) : PyVal :=
  match Py.get player "person" with
  | Ok person =>
      match Py.get person "fullName" with
      | Ok name => name
      | Err _ => PyNone
      end
  | Err _ => PyNone
  end.

(** The jersey number of a roster entry, [None] when it has none. *)
Definition jersey_number (player : PyVal) : PyVal :=
  match Py.get player "jerseyNumber" with
  | Ok number => number
  | Err _ => PyNone
  end.

(** A roster entry the loop of a roster dictionary gets past: its key can
    be a key of a dict. *)
Definition usable (key : PyVal -> PyVal) (player : PyVal) : Prop :=
  roster_entry player /\ Py.hashable (key player) = true.

(** The values returned by [goalie_pulled_setter] called with the values
    [vs], one call after the other on the same team. *)
Fixpoint goalie_pulled_calls (self : Team.t) (vs : list PyVal) : list bool :=
  match vs with
  | [] => []
  | v :: rest =>
      (Team.goalie_pulled_setter self v).1
        :: goalie_pulled_calls (Team.goalie_pulled_setter self v).2 rest
  end.

(** ** Traces *)

#[global] Instance LogLevel_eq_dec : EqDecision LogLevel.
Proof. solve_decision. Defined.

#[global] Instance Callee_eq_dec : EqDecision Callee.
Proof. solve_decision. Defined.

#[global] Instance Event_eq_dec : EqDecision Event.
Proof. solve_decision. Defined.

(** How often [f] was called in a trace. *)
Definition calls_of (f : Callee) (tr : list Event) : nat :=
  length (filter (fun ev => ev = EvCall f) tr).
Arguments calls_of : simpl never.

(** The end of game functions called on a Final game with unsent
    notifications return and send nothing: the game stays Final, the ledger
    stays short of fully sent, and the retry counter and its maximum are
    left alone. *)
Definition final_round_fails {Ext : Type} (c : Collab Ext) : Prop :=
  forall w : World Ext,
    GameState (game_state w.1) = FINAL ->
    all_social_sent (final_socials w.1) = false ->
    exists w1 : World Ext,
      final_functions c w.1 w = (Ret tt, w1) /\
      GameState (game_state w1.1) = FINAL /\
      all_social_sent (final_socials w1.1) = false /\
      retry_count (final_socials w1.1) = retry_count (final_socials w.1) /\
      max_retries (final_socials w1.1) = max_retries (final_socials w.1).

(** The events of one round of the end of game functions. *)
Definition final_round : list Event :=
  [EvLog INFO; EvCall call_get_livefeed; EvCall call_update_game;
   EvCall call_final_score; EvCall call_three_stars; EvCall call_nst_linetool].

(** The events of [end_game_loop], with the line logged before it. *)
Definition end_of_game : list Event :=
  [EvLog INFO; EvLog INFO; EvLog INFO; EvLog INFO; EvLog INFO; EvLog INFO].

(** The events of a Live iteration, by the call that raised. *)
Definition live_fetch_raised (config : Config) : list Event :=
  [EvLog INFO; EvLog INFO; EvCall call_get_livefeed; EvLog ERROR; EvLog ERROR;
   EvSleep (live_sleep_time config)].

Definition live_loop_raised (config : Config) : list Event :=
  [EvLog INFO; EvLog INFO; EvCall call_get_livefeed; EvCall call_live_loop;
   EvLog ERROR; EvLog ERROR; EvSleep (live_sleep_time config)].

Definition live_update_raised (config : Config) : list Event :=
  [EvLog INFO; EvLog INFO; EvCall call_get_livefeed; EvCall call_live_loop;
   EvCall call_update_game; EvLog ERROR; EvLog ERROR;
   EvSleep (live_sleep_time config)].

Definition live_completed (config : Config) : list Event :=
  [EvLog INFO; EvLog INFO; EvCall call_get_livefeed; EvCall call_live_loop;
   EvCall call_update_game; EvLog INFO; EvSleep (live_sleep_time config)].

(** The durations slept for in a trace, in order. *)
Definition sleeps (tr : list Event) : list N :=
  omap (fun ev => match ev with EvSleep secs => Some secs | _ => None end) tr.
Arguments sleeps : simpl never.

(** The duration an iteration on the world [w] sleeps for when it
    returns.  In Preview before the start time it is the value
    [game_preview_others] returned, called on the game and the outside
    world as the iteration found them when the core flag is set, and as
    [generate_game_preview] left them when it is not; elsewhere it is the
    sleep time the configuration gives for the phase. *)
Definition sleep_due {Ext : Type} (config : Config) (c : Collab Ext)
    (w : World Ext) (secs : N) : Prop :=
  match GameState (game_state w.1) with
  | PREVIEW =>
      if (0 <? game_time_countdown w.1)%Z then
        exists (g : Game) (x : Ext),
          (game_preview_others c g x).1 = Ok secs /\
          match pregametweets w.1 !! "core" with
          | Some true => g = w.1 /\ x = ext w.2
          | Some false =>
              generate_game_preview c w.1 (ext w.2) = (Ok tt, (g, x))
          | None => False
          end
      else secs = pregame_sleep_time config
  | LIVE | UNKNOWN => secs = live_sleep_time config
  | FINAL => secs = final_sleep_time config
  end.

(** The game is live, or in a state the loop does not know. *)
Definition live_or_unknown (g : Game) : Prop :=
  GameState (game_state g) = LIVE \/ GameState (game_state g) = UNKNOWN.

(** [live_loop] and [update_game] leave a game that is live or unknown so. *)
Definition keeps_live {Ext : Type} (c : Collab Ext) : Prop :=
  forall (resp : PyVal) (g : Game) (x : Ext),
    live_or_unknown g ->
    live_or_unknown (live_loop c resp g x).2.1 /\
    live_or_unknown (update_game c resp g x).2.1.

(** ** Writes to the game *)

(** [game.last_event_idx = idx] *)
Definition set_last_event_idx (idx : Z) (g : Game) : Game :=
  {| game_id := game_id g;
     game_state := game_state g;
     game_time_countdown := game_time_countdown g;
     last_event_idx := idx;
     pregametweets := pregametweets g;
     final_socials := final_socials g;
     preferred_team := preferred_team g;
     other_team := other_team g |}.

(** [game.pregametweets["core"] = True] *)
Definition mark_core_sent (g : Game) : Game :=
  {| game_id := game_id g;
     game_state := game_state g;
     game_time_countdown := game_time_countdown g;
     last_event_idx := last_event_idx g;
     pregametweets := <[ "core" := true ]> (pregametweets g);
     final_socials := final_socials g;
     preferred_team := preferred_team g;
     other_team := other_team g |}.

(** ** Exits *)

(** [m] never raises [SystemExit]. *)
Definition never_exits {S A} (m : M S A) : Prop :=
  forall s code s', m s <> (SysExit code, s').

(** When [m] raises [SystemExit], it is [sys.exit()] with no code. *)
Definition exits_without_code {S A} (m : M S A) : Prop :=
  forall s code s', m s = (SysExit code, s') -> code = None.

(** From some state [m] raises [SystemExit] with [code]. *)
Definition exits_with {S A} (m : M S A) (code : option Z) : Prop :=
  exists s s', m s = (SysExit code, s').

(** Every [SystemExit] that leaves [m] has a code in [P]. *)
Definition exits_only {S A} (P : option Z -> Prop) (m : M S A) : Prop :=
  forall s code s', m s = (SysExit code, s') -> P code.

(** A function of another module that the script calls before the loop
    ends the process with [code]. *)
Definition startup_exits {Ext : Type} (st : Startup Ext) (code : option Z)
    : Prop :=
  exits_with (load_config st) code \/
  exits_with (get_arguments st) code \/
  exits_with (setup_logging st) code \/
  (exists d, exits_with (date_parser st d) code) \/
  (exists n date, exits_with (is_game_today st n date) code) \/
  (exists info home away,
     exits_with (from_json_and_teams st info home away) code) \/
  exits_with (gameday_roster_update st) code.

(** The codes the script can end with: none, which is status 0, when the
    exit is one of [app.py]; the code of the callee when a function called
    before the loop ends the process. *)
Definition own_or_startup {Ext : Type} (st : Startup Ext) (code : option Z)
    : Prop :=
  code = None \/ startup_exits st code.


(** ** Invariants *)

(** [m] keeps [P] true of the state, however it ends. *)
Definition preserves {S A} (P : S -> Prop) (m : M S A) : Prop :=
  forall s, P s -> P (m s).2.

(** ** The ledger of the pregame notifications *)

(** The ledger says that the core pregame notification was sent. *)
Definition core_sent (g : Game) : Prop := pregametweets g !! "core" = Some true.

(** The call of [generate_game_preview] an iteration adds for the game
    [g]: one when the flag is there and false, none otherwise. *)
Definition core_calls (g : Game) : nat :=
  match pregametweets g !! "core" with
  | Some false => 1
  | _ => 0
  end.

(** A call that does not reset the flag of the core notification. *)
Definition keeps_flag {Ext A : Type}
    (f : Game -> Ext -> Res A * (Game * Ext)) : Prop :=
  forall g x, core_sent g -> core_sent (f g x).2.1.

(** The invariant of the ledger, for the core pregame notification: no
    function that is passed the game resets the flag once it is set. *)
Definition never_resets {Ext : Type} (c : Collab Ext) : Prop :=
  (forall resp, keeps_flag (update_game c resp)) /\
  keeps_flag (generate_game_preview c) /\
  keeps_flag (game_preview_others c) /\
  (forall resp, keeps_flag (live_loop c resp)) /\
  (forall resp, keeps_flag (final_score c resp)) /\
  (forall resp, keeps_flag (three_stars c resp)) /\
  (forall tm, keeps_flag (fun g => nst_linetool c g tm)).

Section CoreContract.
Context {Ext : Type}.

(** [emitted x]: how many core pregame notifications the outside world [x]
    has received. *)
Context (emitted : Ext -> nat).

(** A call that publishes no core pregame notification and does not reset
    the flag. *)
Definition quiet {A} (f : Game -> Ext -> Res A * (Game * Ext)) : Prop :=
  forall g x,
    emitted (f g x).2.2 = emitted x /\
    (core_sent g -> core_sent (f g x).2.1).

(** The dispatch of the core pregame notification: it does not reset the
    flag, and it publishes nothing or publishes once and sets the flag. *)
Definition dispatches_core (f : Game -> Ext -> Res unit * (Game * Ext)) : Prop :=
  forall g x,
    (core_sent g -> core_sent (f g x).2.1) /\
    (emitted (f g x).2.2 = emitted x \/
     (emitted (f g x).2.2 = S (emitted x) /\ core_sent (f g x).2.1)).

(** What the loop relies on in the other modules for the core pregame
    notification: no function resets the flag, only [generate_game_preview]
    publishes the notification, and it publishes at most one per call and
    only together with setting the flag. *)
Record pregame_contract (c : Collab Ext) : Prop := mkContract {
  feed_quiet : forall id x, emitted (get_livefeed c id x).2 = emitted x;
  update_quiet : forall resp, quiet (update_game c resp);
  core_dispatch : dispatches_core (generate_game_preview c);
  others_quiet : quiet (game_preview_others c);
  live_quiet : forall resp, quiet (live_loop c resp);
  score_quiet : forall resp, quiet (final_score c resp);
  stars_quiet : forall resp, quiet (three_stars c resp);
  nst_quiet : forall tm, quiet (fun g => nst_linetool c g tm)
}.

(** Since the world held [e0] notifications, none was published, or one was
    and the flag is set. *)
Definition once_since (e0 : nat) (w : World Ext) : Prop :=
  emitted (ext w.2) = e0 \/
  (emitted (ext w.2) = S e0 /\ core_sent w.1).

End CoreContract.

(** * Sample data *)

Definition sample_record : gmap string PyVal :=
  {[ "wins" := PyInt 3; "losses" := PyInt 1 ]}.

Definition sample_record_ot : gmap string PyVal :=
  {[ "wins" := PyInt 3; "losses" := PyInt 1; "ot" := PyInt 2 ]}.

(** An outside world with nothing in it: every request finds no data. *)
Definition sample_api : Team.Api unit :=
  {| Team.lead_trail_request := fun _ _ x => (Err IndexError, x);
     Team.team_stats_request := fun _ x => (Err KeyError, x);
     Team.roster_request := fun _ x => (Ok (PyList []), x);
     Team.get_broadcasts := fun _ => Ok ∅;
     Team.playoffs_or_preseason := fun _ => false |}.

Definition sample_team_init (record : gmap string PyVal) : Outcome Team.t * unit :=
  Team.__init__ sample_api (PyInt 10) (PyStr "Toronto Maple Leafs")
    (PyStr "Maple Leafs") (PyStr "TOR") "home" (PyStr "N/A") (PyInt 4)
    record (PyStr "20192020") tt.

(** The schedule entry of a regular season game; the league records hold
    an ["ot"] entry when [with_ot]. *)
Definition sample_side (name : string) (with_ot : bool) : PyVal :=
  PyDict {[ "team" := PyDict {[ "id" := PyInt 10; "name" := PyStr name;
                                "teamName" := PyStr name;
                                "abbreviation" := PyStr "TOR" ]};
            "leagueRecord" :=
              PyDict (if with_ot then sample_record_ot else sample_record) ]}.

Definition sample_game_info (with_ot : bool) : PyVal :=
  PyDict {[ "gameType" := PyStr "R"; "season" := PyStr "20192020";
            "teams" := PyDict {[ "home" := sample_side "Maple Leafs" with_ot;
                                 "away" := sample_side "Canadiens" with_ot ]} ]}.

(** An outside world in which no request finds data. *)
Definition no_data_api : Team.Api unit :=
  {| Team.lead_trail_request := fun _ _ x => (Err IndexError, x);
     Team.team_stats_request := fun _ x => (Err KeyError, x);
     Team.roster_request := fun _ x => (Err KeyError, x);
     Team.get_broadcasts := fun _ => Ok ∅;
     Team.playoffs_or_preseason := fun _ => false |}.

(** An outside world that cannot be reached. *)
Definition offline_api : Team.Api unit :=
  {| Team.lead_trail_request := fun _ _ x => (Err FeedUnavailable, x);
     Team.team_stats_request := fun _ x => (Err FeedUnavailable, x);
     Team.roster_request := fun _ x => (Err FeedUnavailable, x);
     Team.get_broadcasts := fun _ => Ok ∅;
     Team.playoffs_or_preseason := fun _ => false |}.

(** ** Sample games and collaborators *)

Definition sample_team (name : string) : Team.t :=
  {| Team.team_id := PyInt 10; Team.team_name := PyStr name;
     Team.short_name := PyStr name; Team.tri_code := PyStr "TOR";
     Team.home_away := "home"; Team.tv_channel := PyStr "N/A";
     Team.games := PyInt 6; Team.record := sample_record_ot;
     Team.season := PyStr "20192020";
     Team.skaters := 5; Team.score := 0; Team.shots := 0;
     Team.power_play := false; Team._goalie_pulled := PyBool false;
     Team.preferred := false; Team.goals := []; Team.lines := ∅;
     Team.overridelines := false; Team.nss_gamelog := PyNone;
     Team.gameday_roster := ∅;
     Team.wins := PyInt 3; Team.losses := PyInt 1; Team.ot := PyInt 2;
     Team.points := PyInt 8;
     Team.lead_trail_lead1P := Team.na3; Team.lead_trail_lead2P := Team.na3;
     Team.lead_trail_trail1P := Team.na3; Team.lead_trail_trail2P := Team.na3;
     Team.team_stats := PyStr "N/A"; Team.rank_stats := PyStr "N/A";
     Team.roster := PyList [] |}.

(** A roster of two players. *)
Definition sample_player (name number : string) (id : Z) : PyVal :=
  PyDict {[ "person" := PyDict {[ "id" := PyInt id; "fullName" := PyStr name ]};
            "jerseyNumber" := PyStr number ]}.

Definition sample_roster : list PyVal :=
  [sample_player "Auston Matthews" "34" 8479318;
   sample_player "Mitchell Marner" "16" 8478483].

(** A team without statistics, with the roster [roster]. *)
Definition sample_team_of (roster : PyVal) : Team.t :=
  {| Team.team_id := PyInt 10; Team.team_name := PyStr "Maple Leafs";
     Team.short_name := PyStr "Maple Leafs"; Team.tri_code := PyStr "TOR";
     Team.home_away := "home"; Team.tv_channel := PyStr "N/A";
     Team.games := PyInt 6; Team.record := sample_record_ot;
     Team.season := PyStr "20192020";
     Team.skaters := 5; Team.score := 0; Team.shots := 0;
     Team.power_play := false; Team._goalie_pulled := PyBool false;
     Team.preferred := false; Team.goals := []; Team.lines := ∅;
     Team.overridelines := false; Team.nss_gamelog := PyNone;
     Team.gameday_roster := ∅;
     Team.wins := PyInt 3; Team.losses := PyInt 1; Team.ot := PyInt 2;
     Team.points := PyInt 8;
     Team.lead_trail_lead1P := Team.na3; Team.lead_trail_lead2P := Team.na3;
     Team.lead_trail_trail1P := Team.na3; Team.lead_trail_trail2P := Team.na3;
     Team.team_stats := PyStr "N/A"; Team.rank_stats := PyStr "N/A";
     Team.roster := roster |}.

(** The team [__init__] returns when no request finds data. *)
Definition sample_team_no_data : Team.t := sample_team_of (PyStr "N/A").

(** Two keys are the same when they are the same string. *)
Definition str_key_eqb (a b : PyVal) : bool :=
  match a, b with
  | PyStr s, PyStr t => bool_decide (s = t)
  | PyNone, PyNone => true
  | _, _ => false
  end.

(** A game in the state [state], [countdown] seconds from its start, with
    every final notification flagged [sent] and [retries] retries done out
    of at most 5. *)
Definition sample_game (state : string) (countdown : Z) (sent : bool)
    (retries : Z) : Game :=
  {| game_id := 2019020001;
     game_state := state;
     game_time_countdown := countdown;
     last_event_idx := 3;
     pregametweets := {[ "core" := false; "lineups" := false ]};
     final_socials :=
       {| socials := {[ "final_score" := sent; "three_stars" := sent ]};
          retry_count := retries;
          max_retries := 5 |};
     preferred_team := sample_team "Maple Leafs";
     other_team := sample_team "Canadiens" |}.

Definition sample_config : Config :=
  {| pregame_sleep_time := 30; live_sleep_time := 5; final_sleep_time := 120 |}.

(** Collaborators whose calls return and change nothing: every dispatch
    fails to send and leaves its flag unset.  The feed, the live loop and
    the game update are given. *)
Definition sample_collab
    (feed : Z -> unit -> Res PyVal * unit)
    (live : PyVal -> Game -> unit -> Res unit * (Game * unit))
    (update : PyVal -> Game -> unit -> Res unit * (Game * unit))
    : Collab unit :=
  {| get_livefeed := feed;
     update_game := update;
     generate_game_preview := fun g x => (Ok tt, (g, x));
     game_preview_others := fun g x => (Ok 60%N, (g, x));
     live_loop := live;
     final_score := fun _ g x => (Ok tt, (g, x));
     three_stars := fun _ g x => (Ok tt, (g, x));
     nst_linetool := fun g _ x => (Ok tt, (g, x)) |}.

Definition feed_up : Z -> unit -> Res PyVal * unit :=
  fun _ x => (Ok (PyDict ∅), x).

Definition feed_down (e : PyExc) : Z -> unit -> Res PyVal * unit :=
  fun _ x => (Err e, x).

Definition no_change : PyVal -> Game -> unit -> Res unit * (Game * unit) :=
  fun _ g x => (Ok tt, (g, x)).

(** Nothing is ever sent, nothing raises. *)
Definition always_failed : Collab unit := sample_collab feed_up no_change no_change.

(** A call that moves the last processed index to 7 and then raises
    [KeyError]. *)
Definition writes_then_raises : PyVal -> Game -> unit -> Res unit * (Game * unit) :=
  fun _ g x => (Err KeyError, (set_last_event_idx 7 g, x)).

(** Collaborators over a world that counts the core pregame notifications
    it received: the preview publishes one and sets the flag, the other
    functions return and change nothing. *)
Definition sending : Collab nat :=
  {| get_livefeed := fun _ x => (Ok (PyDict ∅), x);
     update_game := fun _ g x => (Ok tt, (g, x));
     generate_game_preview := fun g x => (Ok tt, (mark_core_sent g, S x));
     game_preview_others := fun g x => (Ok 60%N, (g, x));
     live_loop := fun _ g x => (Ok tt, (g, x));
     final_score := fun _ g x => (Ok tt, (g, x));
     three_stars := fun _ g x => (Ok tt, (g, x));
     nst_linetool := fun g _ x => (Ok tt, (g, x)) |}.

(** The same world, with a preview that publishes the core notification
    each time it is called and never writes to the ledger. *)
Definition eager : Collab nat :=
  {| get_livefeed := fun _ x => (Ok (PyDict ∅), x);
     update_game := fun _ g x => (Ok tt, (g, x));
     generate_game_preview := fun g x => (Ok tt, (g, S x));
     game_preview_others := fun g x => (Ok 60%N, (g, x));
     live_loop := fun _ g x => (Ok tt, (g, x));
     final_score := fun _ g x => (Ok tt, (g, x));
     three_stars := fun _ g x => (Ok tt, (g, x));
     nst_linetool := fun g _ x => (Ok tt, (g, x)) |}.

(** The platform refuses every post: the calls that post raise. *)
Definition final_score_raises : Collab unit :=
  {| get_livefeed := feed_up;
     update_game := no_change;
     generate_game_preview := fun g x => (Err (OtherError "TweepError"), (g, x));
     game_preview_others := fun g x => (Ok 60%N, (g, x));
     live_loop := no_change;
     final_score := fun _ g x => (Err (OtherError "TweepError"), (g, x));
     three_stars := fun _ g x => (Ok tt, (g, x));
     nst_linetool := fun g _ x => (Ok tt, (g, x)) |}.

Definition sample_args : Args :=
  {| args_date := None; args_docker := false; args_overridelines := false |}.

(** A configuration file with the team the bot runs as. *)
Definition sample_settings : Settings :=
  {| document :=
       PyDict {[ "default" := PyDict {[ "team_name" := PyStr "Maple Leafs" ]} ]};
     script := sample_config |}.

(** A start on [game_today]: the schedule has a game for the date exactly
    when [game_today] is set, and the game it leads to is over with every
    final notification sent. *)
Definition sample_startup (game_today : bool) : Startup unit :=
  {| load_config := ret sample_settings;
     get_arguments := ret sample_args;
     setup_logging := ret tt;
     date_parser := fun d => ret (PyStr d);
     datetime_now := fun x => (PyStr "2019-10-01", x);
     is_game_today := fun _ _ => ret (game_today, sample_game_info true);
     from_json_and_teams := fun _ _ _ => ret (sample_game "Final" 0 true 0);
     gameday_roster_update := ret tt |}.

(** The command line cannot be read: the parser reports it and ends the
    process with status 2. *)
Definition unreadable_arguments : Startup unit :=
  {| load_config := ret sample_settings;
     get_arguments := sys_exit (Some 2);
     setup_logging := ret tt;
     date_parser := fun d => ret (PyStr d);
     datetime_now := fun x => (PyStr "2019-10-01", x);
     is_game_today := fun _ _ => ret (true, sample_game_info true);
     from_json_and_teams := fun _ _ _ => ret (sample_game "Final" 0 true 0);
     gameday_roster_update := ret tt |}.

(** * Tactics *)

Ltac unfold_loop :=
  unfold final_branch, final_functions, live_branch, live_try, live_except,
    preview_branch, unknown_branch, end_game_loop, fetch_livefeed,
    pregametweets_core, call_ext, call_game, log, time_sleep, try_except,
    any_Exception, bind, modify, gets, ret, raise, sys_exit, of_res,
    record_event in *.

Ltac split_call :=
  match goal with
  | |- context [match ?f with (_, _) => _ end] =>
      let E := fresh "Ecall" in
      destruct f as [[?|?] ?] eqn:E;
      repeat match goal with p : (Game * _)%type |- _ => destruct p end;
      cbn
  end.

Ltac unfold_init :=
  unfold Team.__init__, bind, of_res, try_except, Team.request, ret, raise,
    Py.getitem.

Create HintDb exits.
Create HintDb keeps.

(** * Properties *)

(** ** Python arithmetic *)

(** [2] is a float. *)
Lemma float_of_two : Py.float_of_int 2 = Ok 2%float.
Proof. vm_compute. reflexivity. Qed.

Example mul_int_float : Py.mul (PyInt 2) (PyFloat 1.5) = Ok (PyFloat 3).
Proof. vm_compute. reflexivity. Qed.

Example mul_int_str : Py.mul (PyInt 2) (PyStr "ab") = Ok (PyStr "abab").
Proof. reflexivity. Qed.

Example mul_int_dict : Py.mul (PyInt 2) (PyDict ∅) = Err TypeError.
Proof. reflexivity. Qed.

Example add_bool_int : Py.add (PyBool true) (PyInt 7) = Ok (PyInt 8).
Proof. reflexivity. Qed.

Example float_of_huge : Py.float_of_int (2 ^ 1024) = Err OverflowError.
Proof. vm_compute. reflexivity. Qed.

(** Nothing can be added to [None]. *)
Lemma add_None_r (a : PyVal) : Py.add a PyNone = Err TypeError.
Proof. unfold Py.add. destruct a as [| [] | | | | |]; reflexivity. Qed.

(** [(2 * wins) + None] raises [TypeError], whatever [wins] is: either the
    product is not defined, or the sum is not. *)
Lemma calc_points_None (wins : PyVal) :
  Team.calc_points wins PyNone = Err TypeError.
Proof.
  unfold Team.calc_points.
  destruct (Py.mul (PyInt 2) wins) as [w2|e] eqn:Hmul.
  - apply add_None_r.
  - unfold Py.mul in Hmul.
    destruct wins as [| [] | | f | | |]; cbn in Hmul; try congruence.
    unfold Py.arith, Py.to_float in Hmul. rewrite float_of_two in Hmul.
    discriminate.
Qed.

(** ** Team *)

Section TeamFacts.
Context {Ext : Type} (api : Team.Api Ext).

Lemma record_ot_absent (record : gmap string PyVal) :
  record !! "ot" = None -> Team.record_ot record = PyNone.
Proof. intros H. unfold Team.record_ot, Py.getitem. now rewrite H. Qed.

Lemma record_ot_present_eq (record : gmap string PyVal) (v : PyVal) :
  record !! "ot" = Some v -> Team.record_ot record = v.
Proof. intros H. unfold Team.record_ot, Py.getitem. now rewrite H. Qed.

(** Without an ["ot"] entry [__init__] stops at the points, before any
    request is sent. *)
Lemma init_without_ot (team_id team_name short_name tri_code : PyVal)
    (home_away : string) (tv_channel games : PyVal)
    (record : gmap string PyVal) (season : PyVal) (x : Ext) :
  is_Some (record !! "wins") ->
  is_Some (record !! "losses") ->
  record !! "ot" = None ->
  Team.__init__ api team_id team_name short_name tri_code home_away
    tv_channel games record season x = (Raise TypeError, x).
Proof.
  intros [w Hw] [l Hl] Hot.
  unfold Team.__init__, bind, of_res, Py.getitem.
  rewrite Hw, Hl. cbn.
  rewrite (record_ot_absent _ Hot), calc_points_None. reflexivity.
Qed.

(** A [Team] that was constructed had an ["ot"] entry in its record. *)
Lemma init_returns_has_ot (team_id team_name short_name tri_code : PyVal)
    (home_away : string) (tv_channel games : PyVal)
    (record : gmap string PyVal) (season : PyVal) (x x' : Ext) (tm : Team.t) :
  Team.__init__ api team_id team_name short_name tri_code home_away
    tv_channel games record season x = (Ret tm, x') ->
  is_Some (record !! "ot").
Proof.
  intros H.
  destruct (record !! "ot") as [o|] eqn:Hot; [eauto|].
  revert H. unfold Team.__init__, bind, of_res, Py.getitem.
  destruct (record !! "wins") as [w|]; cbn; [|discriminate].
  destruct (record !! "losses") as [l|]; cbn; [|discriminate].
  rewrite (record_ot_absent _ Hot), calc_points_None. cbn. discriminate.
Qed.

(** A constructed [Team] starts with the goalie in net. *)
Lemma init_goalie_pulled (team_id team_name short_name tri_code : PyVal)
    (home_away : string) (tv_channel games : PyVal)
    (record : gmap string PyVal) (season : PyVal) (x x' : Ext) (tm : Team.t) :
  Team.__init__ api team_id team_name short_name tri_code home_away
    tv_channel games record season x = (Ret tm, x') ->
  Team.goalie_pulled tm = PyBool false.
Proof.
  unfold Team.__init__, bind, of_res, try_except, ret.
  repeat (match goal with
          | |- context [match ?r with Ok _ => _ | Err _ => _ end] =>
              destruct r; cbn
          | |- context [match ?r with (_, _) => _ end] =>
              let E := fresh in destruct r as [[]] eqn:E; cbn
          | |- context [if ?b then _ else _] => destruct b; cbn
          end; try discriminate).
  all: intros Hret; inversion Hret; reflexivity.
Qed.

End TeamFacts.

Lemma is_True_spec (v : PyVal) : Py.is_True v = true <-> v = PyBool true.
Proof. destruct v as [| [] | | | | |]; simpl; split; congruence. Qed.

Lemma is_False_spec (v : PyVal) : Py.is_False v = true <-> v = PyBool false.
Proof. destruct v as [| [] | | | | |]; simpl; split; congruence. Qed.

(** C9: for every record with ["wins"] and ["losses"] but no ["ot"] entry,
    [Team.__init__] sets [ot] to [None] and then raises [TypeError] on
    [(2 * wins) + ot], before any request is sent; and whenever
    [Team.__init__] returns a team, the record it was given had an ["ot"]
    entry. *)
Theorem Team_init_needs_ot {Ext : Type} (api : Team.Api Ext)
    (team_id team_name short_name tri_code : PyVal) (home_away : string)
    (tv_channel games : PyVal) (record : gmap string PyVal)
    (season : PyVal) (x : Ext) :
  is_Some (record !! "wins") ->
  is_Some (record !! "losses") ->
  record !! "ot" = None ->
  Team.record_ot record = PyNone /\
  (forall wins, record !! "wins" = Some wins ->
     Team.calc_points wins (Team.record_ot record) = Err TypeError) /\
  Team.__init__ api team_id team_name short_name tri_code home_away
    tv_channel games record season x = (Raise TypeError, x) /\
  (forall (record' : gmap string PyVal) (x0 x' : Ext) (tm : Team.t),
     Team.__init__ api team_id team_name short_name tri_code home_away
       tv_channel games record' season x0 = (Ret tm, x') ->
     is_Some (record' !! "ot")).
Proof.
  intros Hw Hl Hot. split; [|split; [|split]].
  - now apply record_ot_absent.
  - intros wins _. rewrite (record_ot_absent _ Hot). apply calc_points_None.
  - now apply init_without_ot.
  - intros record' x0 x' tm H. eapply init_returns_has_ot, H.
Qed.

(** C10: [goalie_pulled_setter(v)] leaves [goalie_pulled] at [v], returns
    [True] exactly when [v] is [True] and the value before was [False],
    returns [False] otherwise, and changes no other attribute. *)
Theorem goalie_pulled_setter_spec (self : Team.t) (v : PyVal) :
  Team.goalie_pulled (Team.goalie_pulled_setter self v).2 = v /\
  ((Team.goalie_pulled_setter self v).1 = true <->
     v = PyBool true /\ Team.goalie_pulled self = PyBool false) /\
  ((Team.goalie_pulled_setter self v).1 = false <->
     ~ (v = PyBool true /\ Team.goalie_pulled self = PyBool false)) /\
  same_but_goalie_pulled (Team.goalie_pulled_setter self v).2 self.
Proof.
  assert (Hr : (Team.goalie_pulled_setter self v).1 = true <->
               v = PyBool true /\ Team.goalie_pulled self = PyBool false).
  { unfold Team.goalie_pulled_setter. cbn [fst].
    rewrite andb_true_iff, is_True_spec, is_False_spec. reflexivity. }
  split; [reflexivity|]. split; [exact Hr|]. split.
  - rewrite <- Hr. destruct (Team.goalie_pulled_setter self v).1; split; congruence.
  - unfold same_but_goalie_pulled. cbn. repeat split.
Qed.

Lemma Team_init_needs_ot_witness :
  Team.record_ot sample_record = PyNone /\
  sample_team_init sample_record = (Raise TypeError, tt).
Proof.
  destruct (Team_init_needs_ot sample_api (PyInt 10)
              (PyStr "Toronto Maple Leafs") (PyStr "Maple Leafs")
              (PyStr "TOR") "home" (PyStr "N/A") (PyInt 4) sample_record
              (PyStr "20192020") tt) as (H1 & _ & H3 & _).
  - exists (PyInt 3). reflexivity.
  - exists (PyInt 1). reflexivity.
  - reflexivity.
  - split; [exact H1 | exact H3].
Defined.

(** With an ["ot"] entry the same construction returns a team with
    [2 * 3 + 2] points. *)
Example sample_team_init_ot :
  match (sample_team_init sample_record_ot).1 with
  | Ret tm => Team.points tm = PyInt 8 /\ Team.roster tm = PyList []
              /\ Team.team_stats tm = PyStr "N/A"
  | _ => False
  end.
Proof. vm_compute. repeat split. Qed.

(** ** The monad *)

Section MonadFacts.
Context {S A B : Type}.

Lemma bind_Ret (m : M S A) (k : A -> M S B) (s s' : S) (a : A) :
  m s = (Ret a, s') -> bind m k s = k a s'.
Proof. unfold bind. now intros ->. Qed.

Lemma bind_Raise (m : M S A) (k : A -> M S B) (s s' : S) (e : PyExc) :
  m s = (Raise e, s') -> bind m k s = (Raise e, s').
Proof. unfold bind. now intros ->. Qed.

Lemma bind_SysExit (m : M S A) (k : A -> M S B) (s s' : S) (code : option Z) :
  m s = (SysExit code, s') -> bind m k s = (SysExit code, s').
Proof. unfold bind. now intros ->. Qed.

End MonadFacts.

(** ** The phase classifier *)

Lemma GameState_Preview : GameState "Preview" = PREVIEW.
Proof. reflexivity. Qed.

Lemma GameState_Live : GameState "Live" = LIVE.
Proof. reflexivity. Qed.

Lemma GameState_Final : GameState "Final" = FINAL.
Proof. reflexivity. Qed.

(** ** The branch of the unknown state *)

Section LoopFacts.
Context {Ext : Type} (config : Config) (c : Collab Ext).

Lemma unknown_branch_eq (w : World Ext) :
  unknown_branch config w =
    (Ret tt, (w.1, mkSys (ext w.2)
                     (trace w.2 ++ [EvLog WARNING; EvSleep (live_sleep_time config)]))).
Proof.
  unfold unknown_branch, bind, log, time_sleep, modify, record_event. cbn.
  now rewrite <- app_assoc.
Qed.

Lemma loop_body_UNKNOWN (w : World Ext) :
  GameState (game_state w.1) = UNKNOWN ->
  loop_body config c w = unknown_branch config w.
Proof. intros H. unfold loop_body, bind, gets. now rewrite H. Qed.

Lemma loop_body_PREVIEW (w : World Ext) :
  GameState (game_state w.1) = PREVIEW ->
  loop_body config c w = preview_branch config c w.1 w.
Proof. intros H. unfold loop_body, bind, gets. now rewrite H. Qed.

Lemma loop_body_LIVE (w : World Ext) :
  GameState (game_state w.1) = LIVE ->
  loop_body config c w = live_branch config c w.1 w.
Proof. intros H. unfold loop_body, bind, gets. now rewrite H. Qed.

Lemma loop_body_FINAL (w : World Ext) :
  GameState (game_state w.1) = FINAL ->
  loop_body config c w = final_branch config c w.1 w.
Proof. intros H. unfold loop_body, bind, gets. now rewrite H. Qed.

End LoopFacts.

(** C7: in an iteration whose state tag classifies to Unknown the loop
    calls no function of the other modules, leaves the game (ledgers, state
    tag, last processed index) and the outside world as they were, and only
    logs a warning and sleeps for the live sleep time; the iteration returns
    normally. *)
Theorem unknown_iteration_is_idle {Ext : Type} (config : Config)
    (c : Collab Ext) (w : World Ext) :
  GameState (game_state w.1) = UNKNOWN ->
  loop_body config c w =
    (Ret tt,
     (w.1, mkSys (ext w.2)
             (trace w.2 ++ [EvLog WARNING; EvSleep (live_sleep_time config)]))).
Proof.
  intros H. rewrite (loop_body_UNKNOWN config c w H). apply unknown_branch_eq.
Qed.

Lemma unknown_iteration_is_idle_witness :
  loop_body sample_config always_failed
    (sample_game "Postponed" 0 false 0, mkSys tt []) =
    (Ret tt, (sample_game "Postponed" 0 false 0,
              mkSys tt [EvLog WARNING; EvSleep 5])).
Proof.
  apply (unknown_iteration_is_idle sample_config always_failed
           (sample_game "Postponed" 0 false 0, mkSys tt [])).
  reflexivity.
Defined.

(** ** A failing request for the live feed *)

Section FetchFailure.
Context {Ext : Type} (config : Config) (c : Collab Ext).

(** An exception that escapes an iteration ends the loop. *)
Lemma start_game_loop_Raise (fuel : nat) (w w' : World Ext) (e : PyExc) :
  loop_body config c w = (Raise e, w') ->
  start_game_loop config c (S fuel) w = (Raise e, w').
Proof. intros H. cbn [start_game_loop]. now apply bind_Raise. Qed.

Lemma start_game_loop_SysExit (fuel : nat) (w w' : World Ext) (code : option Z) :
  loop_body config c w = (SysExit code, w') ->
  start_game_loop config c (S fuel) w = (SysExit code, w').
Proof. intros H. cbn [start_game_loop]. now apply bind_SysExit. Qed.

Lemma start_game_loop_Ret (fuel : nat) (w w' : World Ext) :
  loop_body config c w = (Ret tt, w') ->
  start_game_loop config c (S fuel) w = start_game_loop config c fuel w'.
Proof. intros H. cbn [start_game_loop]. now rewrite (bind_Ret _ _ _ _ _ H). Qed.

(** In the Final branch the request is outside any [try]: its exception
    leaves the loop. *)
Lemma final_fetch_failure_escapes (w : World Ext) (e : PyExc) (x' : Ext) :
  GameState (game_state w.1) = FINAL ->
  get_livefeed c (game_id w.1) (ext w.2) = (Err e, x') ->
  loop_body config c w =
    (Raise e, (w.1, mkSys x' (trace w.2 ++ [EvLog INFO; EvCall call_get_livefeed]))).
Proof.
  intros Hst Hf. rewrite loop_body_FINAL by exact Hst.
  unfold_loop. cbn. rewrite Hf. cbn. now rewrite <- app_assoc.
Qed.

(** So it is in the Preview branch once the start time has passed. *)
Lemma preview_fetch_failure_escapes (w : World Ext) (e : PyExc) (x' : Ext) :
  GameState (game_state w.1) = PREVIEW ->
  game_time_countdown w.1 <= 0 ->
  get_livefeed c (game_id w.1) (ext w.2) = (Err e, x') ->
  loop_body config c w =
    (Raise e, (w.1, mkSys x' (trace w.2 ++ [EvLog INFO; EvCall call_get_livefeed]))).
Proof.
  intros Hst Hcd Hf. rewrite loop_body_PREVIEW by exact Hst.
  unfold preview_branch.
  destruct (0 <? game_time_countdown w.1)%Z eqn:Hlt; [apply Z.ltb_lt in Hlt; lia|].
  unfold_loop. cbn. rewrite Hf. cbn. now rewrite <- app_assoc.
Qed.

(** In the Live branch the request is inside the [try]: the exception is
    caught and logged, the game is untouched and the loop sleeps for the
    live sleep time. *)
Lemma live_fetch_failure_caught (w : World Ext) (e : PyExc) (x' : Ext) :
  GameState (game_state w.1) = LIVE ->
  get_livefeed c (game_id w.1) (ext w.2) = (Err e, x') ->
  loop_body config c w =
    (Ret tt,
     (w.1, mkSys x'
             (trace w.2 ++ [EvLog INFO; EvLog INFO; EvCall call_get_livefeed;
                            EvLog ERROR; EvLog ERROR;
                            EvSleep (live_sleep_time config)]))).
Proof.
  intros Hst Hf. rewrite loop_body_LIVE by exact Hst.
  unfold_loop. cbn. rewrite Hf. cbn. now rewrite <- !app_assoc.
Qed.

End FetchFailure.

(** C1: the live-feed request of the Final branch and of the Preview branch
    past the start time is outside any [try]: when it raises, the exception
    leaves [start_game_loop] and ends the loop, with no sleep and no retry.
    Here on a Final game with the feed unavailable and on a Preview game
    with a malformed feed. *)
Theorem fetch_failure_ends_the_loop (fuel : nat) :
  start_game_loop sample_config
    (sample_collab (feed_down FeedUnavailable) no_change no_change) (S fuel)
    (sample_game "Final" 0 false 0, mkSys tt []) =
    (Raise FeedUnavailable,
     (sample_game "Final" 0 false 0,
      mkSys tt [EvLog INFO; EvCall call_get_livefeed])) /\
  start_game_loop sample_config
    (sample_collab (feed_down FeedMalformed) no_change no_change) (S fuel)
    (sample_game "Preview" 0 false 0, mkSys tt []) =
    (Raise FeedMalformed,
     (sample_game "Preview" 0 false 0,
      mkSys tt [EvLog INFO; EvCall call_get_livefeed])).
Proof.
  split; apply start_game_loop_Raise.
  - now apply final_fetch_failure_escapes.
  - now apply preview_fetch_failure_escapes.
Qed.

(** ** The Final branch *)

Section FinalBranch.
Context {Ext : Type} (config : Config) (c : Collab Ext).

(** When the end of game functions return, all of them were called, in
    the order of the source. *)
Lemma final_functions_Ret_trace (g : Game) (w w1 : World Ext) :
  final_functions c g w = (Ret tt, w1) ->
  trace w1.2 = trace w.2 ++ final_round.
Proof.
  unfold_loop. cbn. repeat split_call; intros H; inversion H; subst; cbn.
  now rewrite <- !app_assoc.
Qed.

(** The functions were run and the check that follows them holds: the
    process exits without another retry counted and without a sleep. *)
Lemma final_branch_exit (g : Game) (w w1 : World Ext) :
  final_functions c g w = (Ret tt, w1) ->
  all_social_sent (final_socials w1.1) || retries_exeeded (final_socials w1.1) = true ->
  final_branch config c g w =
    (SysExit None, (w1.1, mkSys (ext w1.2) (trace w1.2 ++ end_of_game))).
Proof.
  intros Hf Hc. unfold final_branch.
  rewrite (bind_Ret _ _ _ _ _ Hf). unfold bind at 1. unfold gets at 1. cbn [fst].
  rewrite Hc. unfold_loop. cbn. now rewrite <- !app_assoc.
Qed.

(** The functions were run and the check fails: one more retry is counted
    and the loop sleeps for the final sleep time. *)
Lemma final_branch_continue (g : Game) (w w1 : World Ext) :
  final_functions c g w = (Ret tt, w1) ->
  all_social_sent (final_socials w1.1) || retries_exeeded (final_socials w1.1) = false ->
  final_branch config c g w =
    (Ret tt,
     (incr_retry_count w1.1,
      mkSys (ext w1.2)
        (trace w1.2 ++ [EvLog INFO; EvSleep (final_sleep_time config)]))).
Proof.
  intros Hf Hc. unfold final_branch.
  rewrite (bind_Ret _ _ _ _ _ Hf). unfold bind at 1. unfold gets at 1. cbn [fst].
  rewrite Hc. unfold_loop. cbn. now rewrite <- !app_assoc.
Qed.

End FinalBranch.

(** ** Where the process can exit *)

Section Exits.
Context {S : Type}.

Lemma never_exits_ret {A} (a : A) : never_exits (ret a : M S A).
Proof. intros s code s'. unfold ret. congruence. Qed.

Lemma never_exits_raise {A} (e : PyExc) : never_exits (raise e : M S A).
Proof. intros s code s'. unfold raise. congruence. Qed.

Lemma never_exits_of_res {A} (r : Res A) : never_exits (of_res r : M S A).
Proof. destruct r; [apply never_exits_ret | apply never_exits_raise]. Qed.

Lemma never_exits_modify (f : S -> S) : never_exits (modify f).
Proof. intros s code s'. unfold modify. congruence. Qed.

Lemma never_exits_gets {A} (f : S -> A) : never_exits (gets f).
Proof. intros s code s'. unfold gets. congruence. Qed.

Lemma never_exits_bind {A B} (m : M S A) (k : A -> M S B) :
  never_exits m -> (forall a, never_exits (k a)) -> never_exits (bind m k).
Proof.
  intros Hm Hk s code s'. unfold bind.
  destruct (m s) as [[a|e|code'] s1] eqn:E.
  - apply Hk.
  - congruence.
  - exfalso. exact (Hm _ _ _ E).
Qed.

Lemma never_exits_try_except {A} (m : M S A) (handles : PyExc -> bool)
    (h : PyExc -> M S A) :
  never_exits m -> (forall e, never_exits (h e)) ->
  never_exits (try_except m handles h).
Proof.
  intros Hm Hh s code s'. unfold try_except.
  destruct (m s) as [[a|e|code'] s1] eqn:E.
  - congruence.
  - destruct (handles e); [apply Hh | congruence].
  - exfalso. exact (Hm _ _ _ E).
Qed.

Lemma never_exits_if {A} (b : bool) (m1 m2 : M S A) :
  never_exits m1 -> never_exits m2 -> never_exits (if b then m1 else m2).
Proof. now destruct b. Qed.

Lemma exits_without_code_never {A} (m : M S A) :
  never_exits m -> exits_without_code m.
Proof. intros H s code s' E. exfalso. exact (H _ _ _ E). Qed.

Lemma exits_without_code_sys_exit {A} :
  exits_without_code (sys_exit None : M S A).
Proof. intros s code s'. unfold sys_exit. congruence. Qed.

Lemma exits_without_code_bind {A B} (m : M S A) (k : A -> M S B) :
  exits_without_code m -> (forall a, exits_without_code (k a)) ->
  exits_without_code (bind m k).
Proof.
  intros Hm Hk s code s'. unfold bind.
  destruct (m s) as [[a|e|code'] s1] eqn:E.
  - apply Hk.
  - congruence.
  - intros H. inversion H; subst. exact (Hm _ _ _ E).
Qed.

Lemma exits_without_code_if {A} (b : bool) (m1 m2 : M S A) :
  exits_without_code m1 -> exits_without_code m2 ->
  exits_without_code (if b then m1 else m2).
Proof. now destruct b. Qed.

End Exits.

#[local] Hint Resolve never_exits_ret never_exits_raise never_exits_of_res
  never_exits_modify never_exits_gets never_exits_bind never_exits_try_except
  never_exits_if : exits.

Section LoopExits.
Context {Ext : Type} (config : Config) (c : Collab Ext).

Lemma never_exits_log (lvl : LogLevel) : never_exits (log (Ext := Ext) lvl).
Proof. apply never_exits_modify. Qed.

Lemma never_exits_time_sleep (secs : N) :
  never_exits (time_sleep (Ext := Ext) secs).
Proof. apply never_exits_modify. Qed.

Lemma never_exits_call_ext {A} (name : Callee) (f : Ext -> Res A * Ext) :
  never_exits (call_ext name f).
Proof.
  intros w code w'. unfold call_ext.
  destruct (f (ext w.2)) as [r x']. apply never_exits_of_res.
Qed.

Lemma never_exits_call_game {A} (name : Callee)
    (f : Game -> Ext -> Res A * (Game * Ext)) :
  never_exits (call_game name f).
Proof.
  intros w code w'. unfold call_game.
  destruct (f w.1 (ext w.2)) as [r [g' x']]. apply never_exits_of_res.
Qed.

Hint Resolve never_exits_log never_exits_time_sleep never_exits_call_ext
  never_exits_call_game : exits.

Lemma never_exits_preview_branch (g : Game) :
  never_exits (preview_branch config c g).
Proof.
  unfold preview_branch, fetch_livefeed.
  apply never_exits_if; auto 20 with exits.
Qed.

Lemma never_exits_live_branch (g : Game) :
  never_exits (live_branch config c g).
Proof.
  unfold live_branch, live_try, live_except, fetch_livefeed.
  auto 20 with exits.
Qed.

Lemma never_exits_unknown_branch : never_exits (unknown_branch (Ext := Ext) config).
Proof. unfold unknown_branch. auto with exits. Qed.

Lemma never_exits_final_functions (g : Game) :
  never_exits (final_functions c g).
Proof. unfold final_functions, fetch_livefeed. auto 20 with exits. Qed.

Lemma exits_without_code_end_game_loop :
  exits_without_code (end_game_loop (Ext := Ext)).
Proof.
  unfold end_game_loop.
  repeat (apply exits_without_code_bind;
          [apply exits_without_code_never, never_exits_log | intros _]).
  apply exits_without_code_sys_exit.
Qed.

Lemma exits_without_code_final_branch (g : Game) :
  exits_without_code (final_branch config c g).
Proof.
  unfold final_branch.
  apply exits_without_code_bind;
    [apply exits_without_code_never, never_exits_final_functions | intros _].
  apply exits_without_code_bind;
    [apply exits_without_code_never, never_exits_gets | intros g2].
  apply exits_without_code_bind.
  - apply exits_without_code_if.
    + apply exits_without_code_bind;
        [apply exits_without_code_never, never_exits_log | intros _].
      apply exits_without_code_end_game_loop.
    + apply exits_without_code_never, never_exits_ret.
  - intros _. apply exits_without_code_never. auto 20 with exits.
Qed.

(** The process leaves the loop through [sys.exit] in the Final branch
    only. *)
Lemma loop_body_exit_from_FINAL (w w' : World Ext) (code : option Z) :
  loop_body config c w = (SysExit code, w') ->
  GameState (game_state w.1) = FINAL.
Proof.
  intros H. destruct (GameState (game_state w.1)) eqn:Hst; [| |reflexivity|].
  - rewrite loop_body_PREVIEW in H by exact Hst.
    now apply never_exits_preview_branch in H.
  - rewrite loop_body_LIVE in H by exact Hst.
    now apply never_exits_live_branch in H.
  - rewrite loop_body_UNKNOWN in H by exact Hst.
    now apply never_exits_unknown_branch in H.
Qed.

Lemma exits_without_code_loop_body : exits_without_code (loop_body config c).
Proof.
  intros w code w' H.
  pose proof (loop_body_exit_from_FINAL _ _ _ H) as Hst.
  rewrite loop_body_FINAL in H by exact Hst.
  exact (exits_without_code_final_branch _ _ _ _ H).
Qed.

Lemma exits_without_code_start_game_loop (fuel : nat) :
  exits_without_code (start_game_loop config c fuel).
Proof.
  induction fuel as [|n IH]; cbn [start_game_loop].
  - apply exits_without_code_never, never_exits_ret.
  - apply exits_without_code_bind; [apply exits_without_code_loop_body | now intros _].
Qed.

End LoopExits.

(** A Final iteration that starts with every final notification flagged
    sent still reads the feed, updates the game and calls the three end of
    game functions before it exits. *)
Lemma final_exit_iteration_dispatches :
  all_social_sent (final_socials (sample_game "Final" 0 true 0)) = true /\
  loop_body sample_config always_failed
    (sample_game "Final" 0 true 0, mkSys tt []) =
    (SysExit None,
     (sample_game "Final" 0 true 0,
      mkSys tt
        [EvLog INFO; EvCall call_get_livefeed; EvCall call_update_game;
         EvCall call_final_score; EvCall call_three_stars;
         EvCall call_nst_linetool;
         EvLog INFO; EvLog INFO; EvLog INFO; EvLog INFO; EvLog INFO;
         EvLog INFO])).
Proof. split; vm_compute; reflexivity. Qed.

(** C3 (amended): in every Final iteration whose end of game functions
    return and leave the ledger fully sent or the retries at the maximum,
    the loop has first read the feed, updated the game and called
    [final_score], [three_stars] and [nst_linetool], in this order, and
    then exits through [end_game_loop] with [sys.exit()], without counting
    a retry and without sleeping; and an iteration exits the process only
    when the state classifies to Final. *)
Theorem final_exit_after_dispatch {Ext : Type} (config : Config)
    (c : Collab Ext) (w w1 : World Ext) :
  GameState (game_state w.1) = FINAL ->
  final_functions c w.1 w = (Ret tt, w1) ->
  all_social_sent (final_socials w1.1) || retries_exeeded (final_socials w1.1) = true ->
  trace w1.2 = trace w.2 ++ final_round /\
  loop_body config c w =
    (SysExit None,
     (w1.1, mkSys (ext w1.2) (trace w.2 ++ final_round ++ end_of_game))) /\
  (forall (w0 w' : World Ext) (code : option Z),
     loop_body config c w0 = (SysExit code, w') ->
     GameState (game_state w0.1) = FINAL).
Proof.
  intros Hst Hf Hc.
  pose proof (final_functions_Ret_trace c _ _ _ Hf) as Htr.
  split; [exact Htr|]. split.
  - rewrite loop_body_FINAL by exact Hst.
    rewrite (final_branch_exit config c _ _ _ Hf Hc), Htr.
    now rewrite <- app_assoc.
  - intros w0 w' code. apply loop_body_exit_from_FINAL.
Qed.

Lemma final_exit_after_dispatch_witness :
  loop_body sample_config always_failed
    (sample_game "Final" 0 false 5, mkSys tt []) =
    (SysExit None,
     (sample_game "Final" 0 false 5,
      mkSys tt ([] ++ final_round ++ end_of_game))).
Proof.
  apply (final_exit_after_dispatch sample_config always_failed
           (sample_game "Final" 0 false 5, mkSys tt [])
           (sample_game "Final" 0 false 5, mkSys tt final_round)).
  - reflexivity.
  - reflexivity.
  - reflexivity.
Defined.

(** ** The retries of the Final branch *)

Lemma calls_of_app (f : Callee) (tr1 tr2 : list Event) :
  calls_of f (tr1 ++ tr2) = (calls_of f tr1 + calls_of f tr2)%nat.
Proof. unfold calls_of. now rewrite filter_app, length_app. Qed.

Lemma calls_of_final_round : calls_of call_final_score final_round = 1%nat.
Proof. reflexivity. Qed.

Lemma calls_of_end_of_game : calls_of call_final_score end_of_game = 0%nat.
Proof. reflexivity. Qed.

Lemma calls_of_log_sleep (secs : N) :
  calls_of call_final_score [EvLog INFO; EvSleep secs] = 0%nat.
Proof. reflexivity. Qed.

Section Retries.
Context {Ext : Type} (config : Config) (c : Collab Ext).
Context (Hfails : final_round_fails c).

(** One Final iteration below the maximum: the functions are called once,
    the counter goes up by one, the loop goes on. *)
Lemma final_iteration_retry (w : World Ext) :
  GameState (game_state w.1) = FINAL ->
  all_social_sent (final_socials w.1) = false ->
  retry_count (final_socials w.1) < max_retries (final_socials w.1) ->
  exists w' : World Ext,
    loop_body config c w = (Ret tt, w') /\
    GameState (game_state w'.1) = FINAL /\
    all_social_sent (final_socials w'.1) = false /\
    retry_count (final_socials w'.1) = retry_count (final_socials w.1) + 1 /\
    max_retries (final_socials w'.1) = max_retries (final_socials w.1) /\
    calls_of call_final_score (trace w'.2) =
      S (calls_of call_final_score (trace w.2)).
Proof.
  intros Hst Hsent Hlt.
  destruct (Hfails w Hst Hsent) as (w1 & Hf & Hst1 & Hsent1 & Hrc & Hmax).
  pose proof (final_functions_Ret_trace c _ _ _ Hf) as Htr.
  eexists. split.
  - rewrite loop_body_FINAL by exact Hst.
    apply final_branch_continue; [exact Hf|].
    rewrite Hsent1. unfold retries_exeeded.
    rewrite bool_decide_eq_false_2; [reflexivity | lia].
  - cbn [fst snd trace incr_retry_count final_socials retry_count
         max_retries game_state socials all_social_sent].
    repeat split; try assumption.
    + now rewrite Hrc.
    + rewrite calls_of_app, Htr, calls_of_app, calls_of_final_round,
        calls_of_log_sleep. lia.
Qed.

(** The Final iteration at the maximum: the functions are called once
    more, then the process exits. *)
Lemma final_iteration_exhausted (w : World Ext) :
  GameState (game_state w.1) = FINAL ->
  all_social_sent (final_socials w.1) = false ->
  retry_count (final_socials w.1) = max_retries (final_socials w.1) ->
  exists w' : World Ext,
    loop_body config c w = (SysExit None, w') /\
    retry_count (final_socials w'.1) = retry_count (final_socials w.1) /\
    calls_of call_final_score (trace w'.2) =
      S (calls_of call_final_score (trace w.2)).
Proof.
  intros Hst Hsent Heq.
  destruct (Hfails w Hst Hsent) as (w1 & Hf & Hst1 & Hsent1 & Hrc & Hmax).
  pose proof (final_functions_Ret_trace c _ _ _ Hf) as Htr.
  eexists. split.
  - rewrite loop_body_FINAL by exact Hst.
    apply final_branch_exit; [exact Hf|].
    rewrite Hsent1. unfold retries_exeeded.
    rewrite bool_decide_eq_true_2; [reflexivity | lia].
  - cbn [fst snd trace]. split; [exact Hrc|].
    rewrite calls_of_app, Htr, calls_of_app, calls_of_final_round,
      calls_of_end_of_game. lia.
Qed.

(** [k] Final iterations that stay below the maximum all complete. *)
Lemma final_retries_complete (k : nat) : forall w : World Ext,
  GameState (game_state w.1) = FINAL ->
  all_social_sent (final_socials w.1) = false ->
  retry_count (final_socials w.1) + Z.of_nat k <= max_retries (final_socials w.1) ->
  exists w' : World Ext,
    start_game_loop config c k w = (Ret tt, w') /\
    GameState (game_state w'.1) = FINAL /\
    all_social_sent (final_socials w'.1) = false /\
    retry_count (final_socials w'.1) = retry_count (final_socials w.1) + Z.of_nat k /\
    max_retries (final_socials w'.1) = max_retries (final_socials w.1) /\
    calls_of call_final_score (trace w'.2) =
      (calls_of call_final_score (trace w.2) + k)%nat.
Proof.
  induction k as [|k IH]; intros w Hst Hsent Hle.
  - exists w. cbn. repeat split; try assumption; lia.
  - destruct (final_iteration_retry w Hst Hsent) as
      (w1 & Hb & Hst1 & Hsent1 & Hrc1 & Hmax1 & Hcalls1); [lia|].
    destruct (IH w1 Hst1 Hsent1) as
      (w' & Hl & Hst' & Hsent' & Hrc' & Hmax' & Hcalls'); [lia|].
    exists w'. rewrite (start_game_loop_Ret config c k _ _ Hb).
    repeat split; try assumption; try lia; congruence.
Qed.

End Retries.

Section LoopSplit.
Context {Ext : Type} (config : Config) (c : Collab Ext).

(** The passes of the loop run one after the other. *)
Lemma start_game_loop_add (n m : nat) : forall w w1 : World Ext,
  start_game_loop config c n w = (Ret tt, w1) ->
  start_game_loop config c (n + m) w = start_game_loop config c m w1.
Proof.
  induction n as [|n IH]; intros w w1 H.
  - cbn in H. unfold ret in H. now inversion H.
  - cbn [start_game_loop Nat.add] in *. unfold bind in *.
    destruct (loop_body config c w) as [[[]|e|code] w2]; try discriminate.
    now apply IH.
Qed.

End LoopSplit.

Lemma always_failed_fails : final_round_fails always_failed.
Proof.
  intros [g [x tr]] Hst Hsent.
  exists (g, mkSys x (tr ++ final_round)). cbn [fst snd] in *.
  repeat split; try assumption.
  unfold_loop. cbn. now rewrite <- !app_assoc.
Qed.




(** ** The Live branch *)

Section LiveBranch.
Context {Ext : Type} (config : Config) (c : Collab Ext).

Lemma live_branch_fetch_raises (g : Game) (w : World Ext) (e : PyExc) (x' : Ext) :
  get_livefeed c (game_id g) (ext w.2) = (Err e, x') ->
  live_branch config c g w =
    (Ret tt, (w.1, mkSys x' (trace w.2 ++ live_fetch_raised config))).
Proof.
  intros Hf. unfold_loop. cbn. rewrite Hf. cbn. now rewrite <- !app_assoc.
Qed.

Lemma live_branch_live_loop_raises (g : Game) (w : World Ext) (resp : PyVal)
    (x1 : Ext) (e : PyExc) (g' : Game) (x' : Ext) :
  get_livefeed c (game_id g) (ext w.2) = (Ok resp, x1) ->
  live_loop c resp w.1 x1 = (Err e, (g', x')) ->
  live_branch config c g w =
    (Ret tt, (g', mkSys x' (trace w.2 ++ live_loop_raised config))).
Proof.
  intros Hf Hl. unfold_loop. cbn. rewrite Hf. cbn. rewrite Hl. cbn.
  now rewrite <- !app_assoc.
Qed.

Lemma live_branch_update_raises (g : Game) (w : World Ext) (resp : PyVal)
    (x1 : Ext) (g1 : Game) (x2 : Ext) (e : PyExc) (g' : Game) (x' : Ext) :
  get_livefeed c (game_id g) (ext w.2) = (Ok resp, x1) ->
  live_loop c resp w.1 x1 = (Ok tt, (g1, x2)) ->
  update_game c resp g1 x2 = (Err e, (g', x')) ->
  live_branch config c g w =
    (Ret tt, (g', mkSys x' (trace w.2 ++ live_update_raised config))).
Proof.
  intros Hf Hl Hu. unfold_loop. cbn. rewrite Hf. cbn. rewrite Hl. cbn.
  rewrite Hu. cbn. now rewrite <- !app_assoc.
Qed.

Lemma live_branch_completes (g : Game) (w : World Ext) (resp : PyVal)
    (x1 : Ext) (g1 : Game) (x2 : Ext) (g' : Game) (x' : Ext) :
  get_livefeed c (game_id g) (ext w.2) = (Ok resp, x1) ->
  live_loop c resp w.1 x1 = (Ok tt, (g1, x2)) ->
  update_game c resp g1 x2 = (Ok tt, (g', x')) ->
  live_branch config c g w =
    (Ret tt, (g', mkSys x' (trace w.2 ++ live_completed config))).
Proof.
  intros Hf Hl Hu. unfold_loop. cbn. rewrite Hf. cbn. rewrite Hl. cbn.
  rewrite Hu. cbn. now rewrite <- !app_assoc.
Qed.

(** Whatever the calls inside the [try] do, the Live branch returns, and
    the last thing it did is the sleep for the live sleep time. *)
Lemma live_branch_returns (g : Game) (w : World Ext) :
  exists (w' : World Ext) (evs : list Event),
    live_branch config c g w = (Ret tt, w') /\
    trace w'.2 = trace w.2 ++ evs ++ [EvSleep (live_sleep_time config)].
Proof.
  destruct (get_livefeed c (game_id g) (ext w.2)) as [[resp|e] x1] eqn:Hf.
  2: { eexists; eexists (removelast (live_fetch_raised config)).
       split; [eapply live_branch_fetch_raises; eassumption | reflexivity]. }
  destruct (live_loop c resp w.1 x1) as [[[]|e] [g1 x2]] eqn:Hl.
  2: { eexists; eexists (removelast (live_loop_raised config)).
       split; [eapply live_branch_live_loop_raises; eassumption | reflexivity]. }
  destruct (update_game c resp g1 x2) as [[[]|e] [g2 x3]] eqn:Hu.
  - eexists; eexists (removelast (live_completed config)).
    split; [eapply live_branch_completes; eassumption | reflexivity].
  - eexists; eexists (removelast (live_update_raised config)).
    split; [eapply live_branch_update_raises; eassumption | reflexivity].
Qed.

End LiveBranch.

(** A Live iteration in which [update_game] is reached, moves the last
    processed index from 3 to 7 and raises; and one in which [live_loop]
    does so.  Both exceptions are caught, and the game stays as the call
    that raised left it. *)
Lemma live_exception_keeps_writes :
  last_event_idx (sample_game "Live" 0 false 0) = 3 /\
  last_event_idx (set_last_event_idx 7 (sample_game "Live" 0 false 0)) = 7 /\
  loop_body sample_config (sample_collab feed_up no_change writes_then_raises)
    (sample_game "Live" 0 false 0, mkSys tt []) =
    (Ret tt,
     (set_last_event_idx 7 (sample_game "Live" 0 false 0),
      mkSys tt
        [EvLog INFO; EvLog INFO; EvCall call_get_livefeed;
         EvCall call_live_loop; EvCall call_update_game;
         EvLog ERROR; EvLog ERROR; EvSleep 5])) /\
  loop_body sample_config (sample_collab feed_up writes_then_raises no_change)
    (sample_game "Live" 0 false 0, mkSys tt []) =
    (Ret tt,
     (set_last_event_idx 7 (sample_game "Live" 0 false 0),
      mkSys tt
        [EvLog INFO; EvLog INFO; EvCall call_get_livefeed;
         EvCall call_live_loop;
         EvLog ERROR; EvLog ERROR; EvSleep 5])).
Proof. repeat split; vm_compute; reflexivity. Qed.

(** C5 (amended): in every Live iteration an exception raised by the feed
    request, by [live_loop] or by [update_game] is caught at the loop
    boundary and logged, the iteration returns and its last act is the
    sleep for the live sleep time.  When the feed request raises, the game
    is unchanged and neither [live_loop] nor [update_game] is called; when
    [live_loop] raises, [update_game] is not reached and the game is as
    [live_loop] left it; when [update_game] raises, the game is as
    [update_game] left it. *)
Theorem live_iteration_catches {Ext : Type} (config : Config)
    (c : Collab Ext) (w : World Ext) :
  GameState (game_state w.1) = LIVE ->
  (exists (w' : World Ext) (evs : list Event),
     loop_body config c w = (Ret tt, w') /\
     trace w'.2 = trace w.2 ++ evs ++ [EvSleep (live_sleep_time config)]) /\
  (forall (e : PyExc) (x' : Ext),
     get_livefeed c (game_id w.1) (ext w.2) = (Err e, x') ->
     loop_body config c w =
       (Ret tt, (w.1, mkSys x' (trace w.2 ++ live_fetch_raised config)))) /\
  (forall (resp : PyVal) (x1 : Ext) (e : PyExc) (g' : Game) (x' : Ext),
     get_livefeed c (game_id w.1) (ext w.2) = (Ok resp, x1) ->
     live_loop c resp w.1 x1 = (Err e, (g', x')) ->
     loop_body config c w =
       (Ret tt, (g', mkSys x' (trace w.2 ++ live_loop_raised config)))) /\
  (forall (resp : PyVal) (x1 : Ext) (g1 : Game) (x2 : Ext) (e : PyExc)
          (g' : Game) (x' : Ext),
     get_livefeed c (game_id w.1) (ext w.2) = (Ok resp, x1) ->
     live_loop c resp w.1 x1 = (Ok tt, (g1, x2)) ->
     update_game c resp g1 x2 = (Err e, (g', x')) ->
     loop_body config c w =
       (Ret tt, (g', mkSys x' (trace w.2 ++ live_update_raised config)))).
Proof.
  intros Hst. rewrite (loop_body_LIVE config c w Hst).
  split; [apply live_branch_returns|]. split; [|split].
  - intros e x'. apply live_branch_fetch_raises.
  - intros resp x1 e g' x'. apply live_branch_live_loop_raises.
  - intros resp x1 g1 x2 e g' x'. apply live_branch_update_raises.
Qed.

Lemma live_iteration_catches_witness :
  loop_body sample_config
    (sample_collab (feed_down FeedUnavailable) no_change no_change)
    (sample_game "Live" 0 false 0, mkSys tt []) =
    (Ret tt,
     (sample_game "Live" 0 false 0,
      mkSys tt ([] ++ live_fetch_raised sample_config))).
Proof.
  refine (proj1 (proj2 (live_iteration_catches sample_config
            (sample_collab (feed_down FeedUnavailable) no_change no_change)
            (sample_game "Live" 0 false 0, mkSys tt []) _))
            FeedUnavailable tt _); reflexivity.
Defined.

(** ** The Preview branch and the core pregame notification *)

Section PreviewGate.
Context {Ext : Type} (config : Config) (c : Collab Ext).

Lemma calls_of_snoc_other (f : Callee) (tr : list Event) (ev : Event) :
  ev <> EvCall f -> calls_of f (tr ++ [ev]) = calls_of f tr.
Proof.
  intros Hne. rewrite calls_of_app. unfold calls_of at 2.
  rewrite filter_cons_False by exact Hne. cbn. lia.
Qed.

Lemma calls_of_snoc_same (f : Callee) (tr : list Event) :
  calls_of f (tr ++ [EvCall f]) = S (calls_of f tr).
Proof.
  rewrite calls_of_app. unfold calls_of at 2.
  rewrite filter_cons_True by reflexivity. cbn. lia.
Qed.

(** In a Preview iteration before the start time [generate_game_preview]
    is called exactly when the flag of the core notification is false. *)
Lemma preview_core_gate (w : World Ext) :
  GameState (game_state w.1) = PREVIEW ->
  0 < game_time_countdown w.1 ->
  calls_of call_generate_game_preview (trace (loop_body config c w).2.2) =
    (calls_of call_generate_game_preview (trace w.2) + core_calls w.1)%nat.
Proof.
  intros Hst Hcd. rewrite loop_body_PREVIEW by exact Hst.
  unfold preview_branch, core_calls.
  apply Z.ltb_lt in Hcd. rewrite Hcd.
  unfold_loop. cbn.
  destruct (pregametweets w.1 !! "core") as [[]|]; cbn.
  - split_call; rewrite ?calls_of_snoc_other by discriminate; lia.
  - split_call; [split_call|];
      rewrite ?calls_of_snoc_other by discriminate;
      rewrite calls_of_snoc_same;
      rewrite ?calls_of_snoc_other by discriminate; lia.
  - rewrite calls_of_snoc_other by discriminate. lia.
Qed.

End PreviewGate.

(** *** At most one core pregame notification *)

Section Preserves.
Context {S : Type} (P : S -> Prop).

Lemma preserves_ret {A} (a : A) : preserves P (ret a).
Proof. now intros s. Qed.

Lemma preserves_raise {A} (e : PyExc) : preserves P (raise e : M S A).
Proof. now intros s. Qed.

Lemma preserves_sys_exit {A} (code : option Z) :
  preserves P (sys_exit code : M S A).
Proof. now intros s. Qed.

Lemma preserves_of_res {A} (r : Res A) : preserves P (of_res r).
Proof. destruct r; [apply preserves_ret | apply preserves_raise]. Qed.

Lemma preserves_gets {A} (f : S -> A) : preserves P (gets f).
Proof. now intros s. Qed.

(** The rule of sequence, from a given state. *)
Lemma bind_keeps {A B} (m : M S A) (k : A -> M S B) (s : S) :
  P (m s).2 -> (forall a, preserves P (k a)) -> P (bind m k s).2.
Proof.
  intros Hm Hk. unfold bind.
  destruct (m s) as [[a|e|code] s1]; cbn in *; [now apply Hk | exact Hm..].
Qed.

Lemma preserves_bind {A B} (m : M S A) (k : A -> M S B) :
  preserves P m -> (forall a, preserves P (k a)) -> preserves P (bind m k).
Proof. intros Hm Hk s Hs. apply bind_keeps; [now apply Hm | exact Hk]. Qed.

Lemma preserves_try_except {A} (m : M S A) (handles : PyExc -> bool)
    (h : PyExc -> M S A) :
  preserves P m -> (forall e, preserves P (h e)) ->
  preserves P (try_except m handles h).
Proof.
  intros Hm Hh s Hs. unfold try_except. specialize (Hm s Hs).
  destruct (m s) as [[a|e|code] s1]; cbn in *; try exact Hm.
  destruct (handles e); [now apply Hh | exact Hm].
Qed.

Lemma preserves_if {A} (b : bool) (m1 m2 : M S A) :
  preserves P m1 -> preserves P m2 -> preserves P (if b then m1 else m2).
Proof. now destruct b. Qed.

End Preserves.

#[local] Hint Resolve preserves_ret preserves_raise preserves_sys_exit
  preserves_of_res preserves_gets preserves_bind preserves_try_except
  preserves_if : keeps.

Section CoreOnce.
Context {Ext : Type} (emitted : Ext -> nat).
Context (config : Config) (c : Collab Ext) (Hc : pregame_contract emitted c).
Context (e0 : nat).

Lemma once_log (lvl : LogLevel) : preserves (once_since emitted e0) (log lvl).
Proof. now intros w. Qed.

Lemma once_time_sleep (secs : N) : preserves (once_since emitted e0) (time_sleep secs).
Proof. now intros w. Qed.

Lemma once_incr_retry_count :
  preserves (once_since emitted e0)
    (@modify (World Ext) (fun w => (incr_retry_count w.1, w.2))).
Proof. now intros w. Qed.

Lemma once_call_ext {A} (name : Callee) (f : Ext -> Res A * Ext) :
  (forall x, emitted (f x).2 = emitted x) ->
  preserves (once_since emitted e0) (call_ext name f).
Proof.
  intros Hf [g [x tr]] Hw. unfold call_ext, once_since in *. cbn in *.
  specialize (Hf x). destruct (f x) as [[a|e] x']; cbn in *; now rewrite Hf.
Qed.

Lemma once_call_game {A} (name : Callee)
    (f : Game -> Ext -> Res A * (Game * Ext)) :
  quiet emitted f -> preserves (once_since emitted e0) (call_game name f).
Proof.
  intros Hf [g [x tr]] Hw. unfold call_game, once_since in *. cbn in *.
  destruct (Hf g x) as [He Hs].
  destruct (f g x) as [[a|e] [g' x']]; cbn in *; rewrite He;
    (destruct Hw as [Hw|[Hw Hsent]]; [now left | right; auto]).
Qed.

End CoreOnce.

Section CoreOnceLoop.
Context {Ext : Type} (emitted : Ext -> nat).
Context (config : Config) (c : Collab Ext) (Hc : pregame_contract emitted c).
Context (e0 : nat).

Hint Resolve once_log once_time_sleep once_incr_retry_count : keeps.

Lemma once_fetch_livefeed (g : Game) :
  preserves (once_since emitted e0) (fetch_livefeed c g).
Proof. apply once_call_ext. intros x. apply (feed_quiet _ _ Hc). Qed.

Lemma once_update_game (resp : PyVal) :
  preserves (once_since emitted e0)
    (call_game call_update_game (update_game c resp)).
Proof. apply once_call_game, (update_quiet _ _ Hc). Qed.

Lemma once_game_preview_others :
  preserves (once_since emitted e0)
    (call_game call_game_preview_others (game_preview_others c)).
Proof. apply once_call_game, (others_quiet _ _ Hc). Qed.

Lemma once_live_loop (resp : PyVal) :
  preserves (once_since emitted e0)
    (call_game call_live_loop (live_loop c resp)).
Proof. apply once_call_game, (live_quiet _ _ Hc). Qed.

Lemma once_final_score (resp : PyVal) :
  preserves (once_since emitted e0)
    (call_game call_final_score (final_score c resp)).
Proof. apply once_call_game, (score_quiet _ _ Hc). Qed.

Lemma once_three_stars (resp : PyVal) :
  preserves (once_since emitted e0)
    (call_game call_three_stars (three_stars c resp)).
Proof. apply once_call_game, (stars_quiet _ _ Hc). Qed.

Lemma once_nst_linetool (tm : Team.t) :
  preserves (once_since emitted e0)
    (call_game call_nst_linetool (fun g' => nst_linetool c g' tm)).
Proof. apply once_call_game, (nst_quiet _ _ Hc). Qed.

Hint Resolve once_fetch_livefeed once_update_game once_game_preview_others
  once_live_loop once_final_score once_three_stars once_nst_linetool : keeps.

(** The dispatch is called on a game whose flag is false: nothing was
    published since, and at most one notification is now. *)
Lemma once_generate_game_preview (w : World Ext) :
  pregametweets w.1 !! "core" = Some false ->
  once_since emitted e0 w ->
  once_since emitted e0
    (call_game call_generate_game_preview (generate_game_preview c) w).2.
Proof.
  destruct w as [g [x tr]]. unfold once_since, call_game, core_sent. cbn.
  intros Hflag [Hw|[_ Hsent]]; [|congruence].
  destruct (core_dispatch _ _ Hc g x) as [_ Hd].
  destruct (generate_game_preview c g x) as [[a|e] [g' x']]; cbn in *;
    (destruct Hd as [Hd|[Hd Hs]]; [left; congruence | right; split; [congruence | exact Hs]]).
Qed.

Lemma once_preview_branch (w : World Ext) :
  once_since emitted e0 w ->
  once_since emitted e0 (preview_branch config c w.1 w).2.
Proof.
  intros Hw. unfold preview_branch.
  destruct (0 <? game_time_countdown w.1)%Z.
  - rewrite (bind_Ret (log INFO) _ w (record_event (EvLog INFO) w) tt eq_refl).
    assert (Hw1 : once_since emitted e0 (record_event (EvLog INFO) w)) by exact Hw.
    unfold pregametweets_core.
    destruct (pregametweets w.1 !! "core") as [[]|] eqn:Hflag; cbn [of_res negb].
    + rewrite (bind_Ret (ret true) _ _ (record_event (EvLog INFO) w) true eq_refl).
      cbn [negb].
      apply bind_keeps; [exact Hw1 | auto 10 with keeps].
    + rewrite (bind_Ret (ret false) _ _ (record_event (EvLog INFO) w) false eq_refl).
      cbn [negb].
      apply bind_keeps; [|auto 10 with keeps].
      now apply once_generate_game_preview.
    + exact Hw1.
  - apply bind_keeps; [now apply once_log | auto 10 with keeps].
Qed.

Lemma once_live_branch (g : Game) :
  preserves (once_since emitted e0) (live_branch config c g).
Proof. unfold live_branch, live_try, live_except. auto 20 with keeps. Qed.

Lemma once_final_branch (g : Game) :
  preserves (once_since emitted e0) (final_branch config c g).
Proof.
  unfold final_branch, final_functions, end_game_loop.
  repeat match goal with
         | |- forall _, _ => intro
         | |- preserves _ (bind _ _) => apply preserves_bind
         | |- preserves _ (if _ then _ else _) => apply preserves_if
         | |- preserves _ (modify _) => apply once_incr_retry_count
         | |- preserves _ _ => solve [auto with keeps]
         end.
Qed.

Lemma once_unknown_branch :
  preserves (once_since emitted e0) (unknown_branch config).
Proof. unfold unknown_branch. auto with keeps. Qed.

Lemma once_loop_body : preserves (once_since emitted e0) (loop_body config c).
Proof.
  intros w Hw. unfold loop_body.
  rewrite (bind_Ret (gets fst) _ w w w.1 eq_refl).
  destruct (GameState (game_state w.1)).
  - now apply once_preview_branch.
  - now apply once_live_branch.
  - now apply once_final_branch.
  - now apply once_unknown_branch.
Qed.

Lemma once_start_game_loop (fuel : nat) :
  preserves (once_since emitted e0) (start_game_loop config c fuel).
Proof.
  induction fuel as [|n IH]; cbn [start_game_loop].
  - apply preserves_ret.
  - apply preserves_bind; [apply once_loop_body | now intros _].
Qed.

End CoreOnceLoop.

Lemma sending_contract : pregame_contract id sending.
Proof.
  split; try (intros ? g x; cbn; split; [reflexivity | trivial]).
  - intros id0 x. reflexivity.
  - intros g x. cbn. split.
    + intros _. unfold core_sent, mark_core_sent. cbn. apply lookup_insert_eq.
    + right. split; [reflexivity|].
      unfold core_sent, mark_core_sent. cbn. apply lookup_insert_eq.
  - intros g x. cbn. split; [reflexivity | trivial].
Qed.

(** The contract holds the invariant of the ledger, and more. *)
Lemma contract_never_resets {Ext : Type} (emitted : Ext -> nat)
    (c : Collab Ext) :
  pregame_contract emitted c -> never_resets c.
Proof.
  intros [Hf Hu Hg Ho Hl Hs Ht Hn]. unfold never_resets, keeps_flag.
  repeat split; intros; first [now apply Hu | now apply Hg | now apply Ho
                              | now apply Hl | now apply Hs | now apply Ht
                              | now apply (Hn tm) ].
Qed.

(** That no flag is ever reset does not bound the notifications: [eager]
    never resets a flag, and in three Preview iterations before the start
    time its preview is called three times and the world receives three
    core pregame notifications. *)
Lemma core_notification_published_thrice :
  never_resets eager /\
  (start_game_loop sample_config eager 3
     (sample_game "Preview" 100 false 0, mkSys 0%nat [])).1 = Ret tt /\
  calls_of call_generate_game_preview
    (trace (start_game_loop sample_config eager 3
              (sample_game "Preview" 100 false 0, mkSys 0%nat [])).2.2) = 3%nat /\
  ext (start_game_loop sample_config eager 3
         (sample_game "Preview" 100 false 0, mkSys 0%nat [])).2.2 = 3%nat.
Proof.
  split; [|split; [|split]]; [|vm_compute; reflexivity..].
  unfold never_resets, keeps_flag. cbn. repeat split; auto.
Qed.

(** C6: in every Preview iteration before the start time
    [generate_game_preview] is called exactly when the ledger holds the
    flag [pregametweets["core"]] and it is false, and not when it is true,
    whatever the other modules do; and when they never reset the flag and
    publish the core notification only in [generate_game_preview], at most
    once per call and only together with setting the flag, any run of the
    loop publishes the core pregame notification at most once. *)
Theorem core_preview_gated_once {Ext : Type} (emitted : Ext -> nat)
    (config : Config) (c : Collab Ext) :
  (forall w : World Ext,
     GameState (game_state w.1) = PREVIEW ->
     0 < game_time_countdown w.1 ->
     calls_of call_generate_game_preview (trace (loop_body config c w).2.2) =
       (calls_of call_generate_game_preview (trace w.2) + core_calls w.1)%nat) /\
  (pregame_contract emitted c ->
   forall (fuel : nat) (w : World Ext),
     (emitted (ext (start_game_loop config c fuel w).2.2)
      <= S (emitted (ext w.2)))%nat).
Proof.
  split.
  - intros w. apply preview_core_gate.
  - intros Hc fuel w.
    assert (H0 : once_since emitted (emitted (ext w.2)) w) by now left.
    destruct (once_start_game_loop emitted config c Hc _ fuel w H0) as [H|[H _]];
      rewrite H; lia.
Qed.

Lemma core_preview_gated_once_witness :
  (calls_of call_generate_game_preview
     (trace (loop_body sample_config sending
               (sample_game "Preview" 100 false 0, mkSys 0%nat [])).2.2) =
   (calls_of call_generate_game_preview [] + 1)%nat) /\
  (ext (start_game_loop sample_config sending 3
          (sample_game "Preview" 100 false 0, mkSys 0%nat [])).2.2 <= 1)%nat.
Proof.
  split.
  - apply (proj1 (core_preview_gated_once id sample_config sending)
             (sample_game "Preview" 100 false 0, mkSys 0%nat [])).
    + reflexivity.
    + reflexivity.
  - exact (proj2 (core_preview_gated_once id sample_config sending)
             sending_contract 3%nat
             (sample_game "Preview" 100 false 0, mkSys 0%nat [])).
Defined.

(** In that run the preview is called in the first iteration only, and one
    notification is published. *)
Example sending_run :
  calls_of call_generate_game_preview
    (trace (start_game_loop sample_config sending 3
              (sample_game "Preview" 100 false 0, mkSys 0%nat [])).2.2) = 1%nat /\
  ext (start_game_loop sample_config sending 3
         (sample_game "Preview" 100 false 0, mkSys 0%nat [])).2.2 = 1%nat.
Proof. split; vm_compute; reflexivity. Qed.

(** ** The exit codes *)

Section TeamExits.
Context {Ext : Type} (api : Team.Api Ext).

Lemma never_exits_request {A} (f : Ext -> Res A * Ext) :
  never_exits (Team.request f).
Proof.
  intros x code x'. unfold Team.request.
  destruct (f x) as [[a|e] x1]; congruence.
Qed.

Hint Resolve never_exits_request : exits.

Lemma never_exits_init (team_id team_name short_name tri_code : PyVal)
    (home_away : string) (tv_channel games : PyVal)
    (record : gmap string PyVal) (season : PyVal) :
  never_exits (Team.__init__ api team_id team_name short_name tri_code
                 home_away tv_channel games record season).
Proof. unfold Team.__init__. auto 20 with exits. Qed.

Lemma never_exits_from_json (resp : PyVal) (homeaway : string) :
  never_exits (Team.from_json api resp homeaway).
Proof.
  unfold Team.from_json.
  repeat (apply never_exits_bind; [apply never_exits_of_res | intros ?]).
  match goal with
  | |- never_exits (match ?record with PyDict _ => _ | _ => _ end) =>
      destruct record
  end; first [apply never_exits_raise | apply never_exits_init].
Qed.

End TeamExits.

Section ExitCodes.
Context {S : Type} (P : option Z -> Prop).

Lemma exits_only_never {A} (m : M S A) : never_exits m -> exits_only P m.
Proof. intros H s code s' E. exfalso. exact (H _ _ _ E). Qed.

Lemma exits_only_exits_with {A} (m : M S A) :
  (forall code, exits_with m code -> P code) -> exits_only P m.
Proof. intros H s code s' E. apply H. now exists s, s'. Qed.

Lemma exits_only_sys_exit {A} (code : option Z) :
  P code -> exits_only P (sys_exit code : M S A).
Proof. intros H s code' s' E. unfold sys_exit in E. now inversion E; subst. Qed.

Lemma exits_only_bind {A B} (m : M S A) (k : A -> M S B) :
  exits_only P m -> (forall a, exits_only P (k a)) -> exits_only P (bind m k).
Proof.
  intros Hm Hk s code s'. unfold bind.
  destruct (m s) as [[a|e|code'] s1] eqn:E.
  - apply Hk.
  - congruence.
  - intros H. inversion H; subst. exact (Hm _ _ _ E).
Qed.

Lemma exits_only_if {A} (b : bool) (m1 m2 : M S A) :
  exits_only P m1 -> exits_only P m2 -> exits_only P (if b then m1 else m2).
Proof. now destruct b. Qed.

End ExitCodes.

Section RunExits.
Context {Ext : Type} (py_eq : PyVal -> PyVal -> bool).
Context (api : Team.Api Ext) (st : Startup Ext).

Lemma never_exits_slog (lvl : LogLevel) : never_exits (slog (Ext := Ext) lvl).
Proof. apply never_exits_modify. Qed.

Lemma never_exits_on_ext {A} (m : M Ext A) :
  never_exits m -> never_exits (on_ext m).
Proof.
  intros Hm s code s'. unfold on_ext.
  destruct (m (ext s)) as [o x'] eqn:E. intros H. inversion H; subst.
  exact (Hm _ _ _ E).
Qed.

(** A call passes the exit of its callee on, with the callee's code. *)
Lemma exits_only_on_ext {A} (P : option Z -> Prop) (m : M Ext A) :
  exits_only P m -> exits_only P (on_ext m).
Proof.
  intros Hm s code s'. unfold on_ext.
  destruct (m (ext s)) as [o x'] eqn:E. intros H. inversion H; subst.
  exact (Hm _ _ _ E).
Qed.

Lemma exits_only_on_game (P : option Z -> Prop) (m : M (Game * Ext) unit)
    (game : Game) :
  exits_only P m -> exits_only P (on_game m game).
Proof.
  intros Hm s code s'. unfold on_game.
  destruct (m (game, ext s)) as [[[]|e|code'] [g' x']] eqn:E;
    intros H; inversion H; subst.
  exact (Hm _ _ _ E).
Qed.

Lemma exits_only_load_config :
  exits_only (own_or_startup st) (load_config st).
Proof. apply exits_only_exits_with. intros code H. right. now left. Qed.

(** The head of [run] ends the process only when one of its callees
    does. *)
Lemma exits_only_run_date : exits_only (startup_exits st) (run_date st).
Proof.
  unfold run_date.
  apply exits_only_bind; [apply exits_only_on_ext, exits_only_exits_with;
                          intros code H; now left | intros config].
  apply exits_only_bind; [apply exits_only_on_ext, exits_only_exits_with;
                          intros code H; right; now left | intros args].
  apply exits_only_bind; [apply exits_only_on_ext, exits_only_exits_with;
                          intros code H; do 2 right; now left | intros _].
  apply exits_only_bind; [apply exits_only_never, never_exits_of_res
                         | intros team_name].
  repeat (apply exits_only_bind;
          [apply exits_only_never;
           first [apply never_exits_slog
                 | apply never_exits_if;
                   [apply never_exits_slog | apply never_exits_ret]]
          | intros _]).
  apply exits_only_bind; [|intros date; apply exits_only_never, never_exits_ret].
  assert (Hnow : exits_only (startup_exits st)
            (on_ext (fun x => let '(d, x') := datetime_now st x in (Ret d, x')))).
  { apply exits_only_never, never_exits_on_ext. intros x code x'.
    destruct (datetime_now st x). congruence. }
  destruct (args_date args) as [[|a d]|]; [exact Hnow | | exact Hnow].
  apply exits_only_on_ext, exits_only_exits_with.
  intros code H. do 3 right. left. exists (String a d). exact H.
Qed.

Lemma exits_only_run_game (team_name : PyVal) (args : Args)
    (game_info : PyVal) :
  exits_only (startup_exits st) (run_game py_eq api st team_name args game_info).
Proof.
  unfold run_game.
  apply exits_only_bind;
    [apply exits_only_never, never_exits_slog | intros _].
  apply exits_only_bind;
    [apply exits_only_never, never_exits_on_ext, never_exits_from_json
    | intros away_team].
  apply exits_only_bind;
    [apply exits_only_never, never_exits_on_ext, never_exits_from_json
    | intros home_team].
  apply exits_only_bind.
  - apply exits_only_on_ext, exits_only_exits_with.
    intros code H. do 5 right. left. do 3 eexists. exact H.
  - intros game. apply exits_only_on_game, exits_only_exits_with.
    intros code H. do 6 right. exact H.
Qed.

(** [run] reached the schedule, which has no game: [run] exits before the
    loop is entered, as the call of the schedule left the world and with
    nothing done since. *)
Lemma run_no_game (s s1 : Sys Ext) (team_name : PyVal) (args : Args)
    (date game_info : PyVal) (x2 : Ext) :
  run_date st s = (Ret (team_name, args, date), s1) ->
  is_game_today st 1 date (ext s1) = (Ret (false, game_info), x2) ->
  run py_eq api st s = (SysExit None, mkSys x2 (trace s1)).
Proof.
  intros Hd Ht. unfold run.
  rewrite (bind_Ret _ _ _ _ _ Hd).
  unfold bind, on_ext. cbn [fst snd]. rewrite Ht. reflexivity.
Qed.

(** How [run] ends the process: by its own [sys.exit()] right after the
    schedule reported no game, or through the exit of a callee. *)
Lemma run_exit_cases (s s' : Sys Ext) (code : option Z) :
  run py_eq api st s = (SysExit code, s') ->
  (exists (team_name : PyVal) (args : Args) (date game_info : PyVal)
          (s1 : Sys Ext) (x2 : Ext),
     run_date st s = (Ret (team_name, args, date), s1) /\
     is_game_today st 1 date (ext s1) = (Ret (false, game_info), x2) /\
     code = None /\ s' = mkSys x2 (trace s1)) \/
  startup_exits st code.
Proof.
  unfold run, bind.
  destruct (run_date st s) as [[[[team_name args] date]|e|code0] s1] eqn:Hd.
  2: { discriminate. }
  2: { intros H. inversion H; subst. right.
       exact (exits_only_run_date _ _ _ Hd). }
  unfold on_ext. cbn [fst snd].
  destruct (is_game_today st 1 date (ext s1)) as [[[today info]|e|code0] x2] eqn:Ht.
  2: { discriminate. }
  2: { intros H. inversion H; subst. right. do 4 right. left.
       exists 1, date, (ext s1), x2. exact Ht. }
  destruct today; cbn [negb fst snd].
  - intros H. right. exact (exits_only_run_game _ _ _ _ _ _ H).
  - intros H. unfold sys_exit in H. inversion H; subst. left.
    exists team_name, args, date, info, s1, x2. now repeat split.
Qed.

Lemma exits_only_run : exits_only (own_or_startup st) (run py_eq api st).
Proof.
  intros s code s' H.
  destruct (run_exit_cases _ _ _ H) as [(? & ? & ? & ? & ? & ? & _ & _ & -> & _)|Hs];
    [now left | now right].
Qed.

(** The loop was entered: [main] ends as the loop does. *)
Lemma main_enters_loop (c : Collab Ext) (fuel : nat) (s s1 : Sys Ext)
    (game : Game) (config : Settings) (x2 : Ext) :
  run py_eq api st s = (Ret game, s1) ->
  load_config st (ext s1) = (Ret config, x2) ->
  main py_eq api st c fuel s =
    ((start_game_loop (script config) c fuel (game, mkSys x2 (trace s1))).1,
     (start_game_loop (script config) c fuel (game, mkSys x2 (trace s1))).2.2).
Proof.
  intros Hrun Hcfg. unfold main.
  rewrite (bind_Ret _ _ _ _ _ Hrun).
  unfold bind, on_ext. rewrite Hcfg.
  now destruct (start_game_loop _ _ _ _) as [o w].
Qed.

Lemma exits_only_main (c : Collab Ext) (fuel : nat) :
  exits_only (own_or_startup st) (main py_eq api st c fuel).
Proof.
  unfold main.
  apply exits_only_bind; [apply exits_only_run | intros game].
  apply exits_only_bind;
    [apply exits_only_on_ext, exits_only_load_config | intros config].
  intros s code s'.
  destruct (start_game_loop (script config) c fuel (game, s)) as [o w] eqn:Hloop.
  intros H. inversion H; subst. left.
  exact (exits_without_code_start_game_loop _ c fuel _ _ _ Hloop).
Qed.

(** The loop reaches a Final iteration whose end of game functions return
    and whose check holds: it ends there, whatever the passes it still had. *)
Lemma loop_terminates (config : Config) (c : Collab Ext) (n fuel : nat)
    (w0 w w1 : World Ext) :
  start_game_loop config c n w0 = (Ret tt, w) ->
  GameState (game_state w.1) = FINAL ->
  final_functions c w.1 w = (Ret tt, w1) ->
  all_social_sent (final_socials w1.1) || retries_exeeded (final_socials w1.1) = true ->
  start_game_loop config c (n + S fuel) w0 =
    (SysExit None, (w1.1, mkSys (ext w1.2) (trace w1.2 ++ end_of_game))).
Proof.
  intros Hn Hst Hf Hcond.
  rewrite (start_game_loop_add config c n (S fuel) _ _ Hn).
  apply start_game_loop_SysExit.
  rewrite loop_body_FINAL by exact Hst.
  exact (final_branch_exit config c _ _ _ Hf Hcond).
Qed.

End RunExits.

(** C8: the process exits with status 0 on both graceful paths.  When the
    schedule has no game for the date, [run] exits through [sys.exit()] and
    the script ends there, before the loop is entered; when the loop reaches
    a Final iteration whose check holds, [end_game_loop] exits through
    [sys.exit()] and the script ends there.  And [app.py] defines no other
    code: whenever the script ends through [SystemExit], it is with no
    code, so with status 0, or the exit is the one of a function of another
    module called before the loop, passed on with its code. *)
Theorem graceful_exit_status_zero {Ext : Type}
    (py_eq : PyVal -> PyVal -> bool) (api : Team.Api Ext) (st : Startup Ext)
    (c : Collab Ext) :
  (forall (fuel : nat) (s s1 : Sys Ext) (team_name : PyVal) (args : Args)
          (date game_info : PyVal) (x2 : Ext),
     run_date st s = (Ret (team_name, args, date), s1) ->
     is_game_today st 1 date (ext s1) = (Ret (false, game_info), x2) ->
     main py_eq api st c fuel s = (SysExit None, mkSys x2 (trace s1)) /\
     exit_status None = 0) /\
  (forall (n fuel : nat) (s s1 : Sys Ext) (game : Game) (config : Settings)
          (x2 : Ext) (w w1 : World Ext),
     run py_eq api st s = (Ret game, s1) ->
     load_config st (ext s1) = (Ret config, x2) ->
     start_game_loop (script config) c n (game, mkSys x2 (trace s1)) = (Ret tt, w) ->
     GameState (game_state w.1) = FINAL ->
     final_functions c w.1 w = (Ret tt, w1) ->
     all_social_sent (final_socials w1.1) || retries_exeeded (final_socials w1.1) = true ->
     main py_eq api st c (n + S fuel) s =
       (SysExit None, mkSys (ext w1.2) (trace w1.2 ++ end_of_game)) /\
     exit_status None = 0) /\
  (forall (fuel : nat) (s s' : Sys Ext) (code : option Z),
     main py_eq api st c fuel s = (SysExit code, s') ->
     (code = None /\ exit_status code = 0) \/ startup_exits st code).
Proof.
  split; [|split].
  - intros fuel s s1 team_name args date game_info x2 Hd Ht.
    split; [|reflexivity]. unfold main.
    now rewrite (bind_SysExit _ _ _ _ _
                   (run_no_game py_eq api st _ _ _ _ _ _ _ Hd Ht)).
  - intros n fuel s s1 game config x2 w w1 Hrun Hcfg Hn Hst Hf Hcond.
    split; [|reflexivity].
    rewrite (main_enters_loop py_eq api st c _ _ _ _ _ _ Hrun Hcfg).
    now rewrite (loop_terminates (script config) c n fuel _ _ _ Hn Hst Hf Hcond).
  - intros fuel s s' code H.
    destruct (exits_only_main py_eq api st c fuel _ _ _ H) as [->|Hs];
      [left; now split | now right].
Qed.

Lemma graceful_exit_status_zero_witness :
  (main str_key_eqb sample_api (sample_startup false) always_failed 3
     (mkSys tt []) =
     (SysExit None, mkSys tt (replicate 7 (EvLog INFO))) /\
   exit_status None = 0) /\
  (main str_key_eqb sample_api (sample_startup true) always_failed (0 + 1)
     (mkSys tt []) =
     (SysExit None,
      mkSys tt ((replicate 7 (EvLog INFO) ++ [EvLog DEBUG] ++ final_round)
                ++ end_of_game)) /\
   exit_status None = 0).
Proof.
  split.
  - apply (proj1 (graceful_exit_status_zero str_key_eqb sample_api
                    (sample_startup false) always_failed)
             3%nat (mkSys tt []) (mkSys tt (replicate 7 (EvLog INFO)))
             (PyStr "Maple Leafs") sample_args (PyStr "2019-10-01")
             (sample_game_info true) tt).
    + reflexivity.
    + reflexivity.
  - apply (proj1 (proj2 (graceful_exit_status_zero str_key_eqb sample_api
                           (sample_startup true) always_failed))
             0%nat 0%nat (mkSys tt [])
             (mkSys tt (replicate 7 (EvLog INFO) ++ [EvLog DEBUG]))
             (sample_game "Final" 0 true 0) sample_settings tt
             (sample_game "Final" 0 true 0,
              mkSys tt (replicate 7 (EvLog INFO) ++ [EvLog DEBUG]))
             (sample_game "Final" 0 true 0,
              mkSys tt (replicate 7 (EvLog INFO) ++ [EvLog DEBUG] ++ final_round))).
    + vm_compute. reflexivity.
    + reflexivity.
    + reflexivity.
    + reflexivity.
    + reflexivity.
    + reflexivity.
Defined.

(** An exit of the command-line parser is not one of [app.py]: it ends the
    script before the first log line, and its code is passed on. *)
Example unreadable_arguments_exit :
  main str_key_eqb sample_api unreadable_arguments always_failed 3
    (mkSys tt []) = (SysExit (Some 2), mkSys tt []) /\
  exit_status (Some 2) = 2 /\
  startup_exits unreadable_arguments (Some 2).
Proof.
  split; [reflexivity|]. split; [reflexivity|].
  right. left. exists tt, tt. reflexivity.
Qed.

(** * Further properties of models/team.py *)

(** ** The games count and the record of [from_json] *)

Section FromJson.
Context {Ext : Type} (api : Team.Api Ext).

Lemma from_json_games_playoffs (resp : PyVal) (rec : gmap string PyVal)
    (gt : PyVal) (w l : Z) :
  Team.index resp "gameType" = Ok gt ->
  Team.playoffs_or_preseason api gt = true ->
  rec !! "wins" = Some (PyInt w) ->
  rec !! "losses" = Some (PyInt l) ->
  Team.from_json_games api resp (PyDict rec) = Ok (PyInt (w + l)).
Proof.
  intros Hgt Hp Hw Hl. unfold Team.from_json_games.
  rewrite Hgt. cbn. rewrite Hp. unfold Py.getitem. rewrite Hw, Hl. reflexivity.
Qed.

Lemma from_json_games_regular (resp : PyVal) (rec : gmap string PyVal)
    (gt : PyVal) (w l : Z) :
  Team.index resp "gameType" = Ok gt ->
  Team.playoffs_or_preseason api gt = false ->
  rec !! "wins" = Some (PyInt w) ->
  rec !! "losses" = Some (PyInt l) ->
  Team.from_json_games api resp (PyDict rec) =
    match rec !! "ot" with
    | Some o => Py.add (PyInt (w + l)) o
    | None => Err KeyError
    end.
Proof.
  intros Hgt Hp Hw Hl. unfold Team.from_json_games.
  rewrite Hgt. cbn. rewrite Hp. unfold Py.getitem. rewrite Hw, Hl. cbn.
  now destruct (rec !! "ot").
Qed.

(** Without an ["ot"] entry [__init__] raises before any request. *)
Lemma init_no_ot_raises (team_id team_name short_name tri_code : PyVal)
    (home_away : string) (tv_channel games : PyVal)
    (record : gmap string PyVal) (season : PyVal) (x : Ext) :
  record !! "ot" = None ->
  exists e,
    Team.__init__ api team_id team_name short_name tri_code home_away
      tv_channel games record season x = (Raise e, x).
Proof.
  intros Hot. unfold Team.__init__, bind, of_res, raise, Py.getitem.
  destruct (record !! "wins") as [w|]; cbn; [|eauto].
  destruct (record !! "losses") as [l|]; cbn; [|eauto].
  rewrite (record_ot_absent _ Hot), calc_points_None. eauto.
Qed.

End FromJson.

(** X1: [Team.from_json] never returns a team when the league record of
    the side has no ["ot"] entry, whether the game is a regular season game
    or not; it raises before any request is sent, so the outside world is
    as it was. *)
Theorem from_json_needs_ot {Ext : Type} (api : Team.Api Ext) (resp : PyVal)
    (homeaway : string) (rec : gmap string PyVal) (x : Ext) :
  league_record resp homeaway = Ok (PyDict rec) ->
  rec !! "ot" = None ->
  exists e, Team.from_json api resp homeaway x = (Raise e, x).
Proof.
  unfold league_record, Team.res_bind. intros Hrec Hot.
  unfold Team.from_json, bind, of_res, ret, raise.
  destruct (Team.get_broadcasts api resp) as [bc|e]; cbn; [|eauto].
  destruct (Team.index resp "teams") as [teams|e]; cbn; [|discriminate].
  destruct (Team.index teams homeaway) as [side|e]; cbn; [|discriminate].
  destruct (Team.index side "team") as [team|e]; cbn; [|eauto].
  rewrite Hrec. cbn.
  destruct (Team.from_json_games api resp (PyDict rec)) as [games|e]; cbn; [|eauto].
  destruct (Team.index team "id") as [id|e]; cbn; [|eauto].
  destruct (Team.index team "name") as [name|e]; cbn; [|eauto].
  destruct (Team.index team "teamName") as [teamName|e]; cbn; [|eauto].
  destruct (Team.index team "abbreviation") as [abbreviation|e]; cbn; [|eauto].
  destruct (Team.index resp "season") as [season|e]; cbn; [|eauto].
  now apply init_no_ot_raises.
Qed.

Lemma from_json_needs_ot_witness :
  exists e,
    Team.from_json sample_api (sample_game_info false) "home" tt = (Raise e, tt).
Proof.
  apply (from_json_needs_ot sample_api (sample_game_info false) "home"
           sample_record tt).
  - reflexivity.
  - reflexivity.
Defined.

(** With the ["ot"] entry the same schedule entry gives the home team, with
    the channel defaulted and 6 games played. *)
Example from_json_sample :
  match (Team.from_json sample_api (sample_game_info true) "home" tt).1 with
  | Ret tm => Team.games tm = PyInt 6 /\ Team.tv_channel tm = PyStr "N/A"
              /\ Team.points tm = PyInt 8 /\ Team.home_away tm = "home"
  | _ => False
  end.
Proof. vm_compute. repeat split. Qed.

(** X2: the games count of [from_json] for a record with integer wins and
    losses: in the playoffs and the preseason it is wins plus losses and
    the ["ot"] entry is not read; otherwise the ["ot"] entry is added, and
    a record without it raises [KeyError]. *)
Theorem from_json_games_count {Ext : Type} (api : Team.Api Ext) (resp : PyVal)
    (rec : gmap string PyVal) (gt : PyVal) (w l : Z) :
  Team.index resp "gameType" = Ok gt ->
  rec !! "wins" = Some (PyInt w) ->
  rec !! "losses" = Some (PyInt l) ->
  Team.from_json_games api resp (PyDict rec) =
    if Team.playoffs_or_preseason api gt then Ok (PyInt (w + l))
    else match rec !! "ot" with
         | Some o => Py.add (PyInt (w + l)) o
         | None => Err KeyError
         end.
Proof.
  intros Hgt Hw Hl.
  destruct (Team.playoffs_or_preseason api gt) eqn:Hp.
  - now apply from_json_games_playoffs with (gt := gt).
  - now apply from_json_games_regular with (gt := gt).
Qed.

Lemma from_json_games_count_witness :
  Team.from_json_games sample_api (sample_game_info false) (PyDict sample_record) =
    Err KeyError.
Proof.
  apply (from_json_games_count sample_api (sample_game_info false)
           sample_record (PyStr "R") 3 1); reflexivity.
Defined.

(** ** The requests of [__init__] *)

(** X3: the three requests of [__init__] are optional: when each of them
    raises [IndexError] or [KeyError], a record with wins, losses and
    points still gives a team, with the lead / trail strings at
    ["N/A-N/A-N/A"] and the statistics and the roster at ["N/A"]. *)
Theorem init_without_data {Ext : Type} (api : Team.Api Ext)
    (team_id team_name short_name tri_code : PyVal) (home_away : string)
    (tv_channel games : PyVal) (record : gmap string PyVal) (season : PyVal)
    (w l p : PyVal) (e1 e2 e3 : PyExc) (x x1 x2 x3 : Ext) :
  record !! "wins" = Some w ->
  record !! "losses" = Some l ->
  Team.calc_points w (Team.record_ot record) = Ok p ->
  Team.lead_trail_request api season team_id x = (Err e1, x1) ->
  Team.team_stats_request api team_id x1 = (Err e2, x2) ->
  Team.roster_request api team_id x2 = (Err e3, x3) ->
  Team.index_or_key e1 = true ->
  Team.index_or_key e2 = true ->
  Team.index_or_key e3 = true ->
  exists tm : Team.t,
    Team.__init__ api team_id team_name short_name tri_code home_away
      tv_channel games record season x = (Ret tm, x3) /\
    Team.points tm = p /\
    Team.lead_trail_lead1P tm = "N/A-N/A-N/A" /\
    Team.lead_trail_lead2P tm = "N/A-N/A-N/A" /\
    Team.lead_trail_trail1P tm = "N/A-N/A-N/A" /\
    Team.lead_trail_trail2P tm = "N/A-N/A-N/A" /\
    Team.team_stats tm = PyStr "N/A" /\
    Team.rank_stats tm = PyStr "N/A" /\
    Team.roster tm = PyStr "N/A".
Proof.
  intros Hw Hl Hp H1 H2 H3 He1 He2 He3.
  eexists. split.
  - unfold_init. rewrite Hw, Hl. cbn. rewrite Hp. cbn.
    rewrite H1, He1. cbn. rewrite H2, He2. cbn. rewrite H3, He3. cbn.
    reflexivity.
  - cbn. repeat split.
Qed.

Lemma init_without_data_witness :
  exists tm : Team.t,
    Team.__init__ no_data_api (PyInt 10) (PyStr "Maple Leafs")
      (PyStr "Maple Leafs") (PyStr "TOR") "home" (PyStr "N/A") (PyInt 6)
      sample_record_ot (PyStr "20192020") tt = (Ret tm, tt) /\
    Team.points tm = PyInt 8 /\
    Team.lead_trail_lead1P tm = "N/A-N/A-N/A" /\
    Team.lead_trail_lead2P tm = "N/A-N/A-N/A" /\
    Team.lead_trail_trail1P tm = "N/A-N/A-N/A" /\
    Team.lead_trail_trail2P tm = "N/A-N/A-N/A" /\
    Team.team_stats tm = PyStr "N/A" /\
    Team.rank_stats tm = PyStr "N/A" /\
    Team.roster tm = PyStr "N/A".
Proof.
  apply (init_without_data no_data_api (PyInt 10) (PyStr "Maple Leafs")
           (PyStr "Maple Leafs") (PyStr "TOR") "home" (PyStr "N/A") (PyInt 6)
           sample_record_ot (PyStr "20192020") (PyInt 3) (PyInt 1) (PyInt 8)
           IndexError KeyError KeyError tt tt tt tt); reflexivity.
Defined.

(** X4: [__init__] handles [IndexError] and [KeyError] only: an exception
    of another class raised by the lead / trail request, by the statistics
    request or by the roster request leaves [__init__], and the requests
    after it are not sent. *)
Theorem init_propagates_other_errors {Ext : Type} (api : Team.Api Ext)
    (team_id team_name short_name tri_code : PyVal) (home_away : string)
    (tv_channel games : PyVal) (record : gmap string PyVal) (season : PyVal)
    (w l p : PyVal) (x : Ext) :
  record !! "wins" = Some w ->
  record !! "losses" = Some l ->
  Team.calc_points w (Team.record_ot record) = Ok p ->
  (forall (e : PyExc) (x1 : Ext),
     Team.lead_trail_request api season team_id x = (Err e, x1) ->
     Team.index_or_key e = false ->
     Team.__init__ api team_id team_name short_name tri_code home_away
       tv_channel games record season x = (Raise e, x1)) /\
  (forall (r1 : Res Team.LeadTrail) (e : PyExc) (x1 x2 : Ext),
     Team.lead_trail_request api season team_id x = (r1, x1) ->
     match r1 with Ok _ => True | Err e1 => Team.index_or_key e1 = true end ->
     Team.team_stats_request api team_id x1 = (Err e, x2) ->
     Team.index_or_key e = false ->
     Team.__init__ api team_id team_name short_name tri_code home_away
       tv_channel games record season x = (Raise e, x2)) /\
  (forall (r1 : Res Team.LeadTrail) (r2 : Res (PyVal * PyVal)) (e : PyExc)
          (x1 x2 x3 : Ext),
     Team.lead_trail_request api season team_id x = (r1, x1) ->
     match r1 with Ok _ => True | Err e1 => Team.index_or_key e1 = true end ->
     Team.team_stats_request api team_id x1 = (r2, x2) ->
     match r2 with Ok _ => True | Err e2 => Team.index_or_key e2 = true end ->
     Team.roster_request api team_id x2 = (Err e, x3) ->
     Team.index_or_key e = false ->
     Team.__init__ api team_id team_name short_name tri_code home_away
       tv_channel games record season x = (Raise e, x3)).
Proof.
  intros Hw Hl Hp. split; [|split].
  - intros e x1 H1 He. unfold_init. rewrite Hw, Hl. cbn. rewrite Hp. cbn.
    rewrite H1, He. reflexivity.
  - intros r1 e x1 x2 H1 Hr1 H2 He. unfold_init. rewrite Hw, Hl. cbn.
    rewrite Hp. cbn. rewrite H1.
    destruct r1 as [lt|e1]; [|rewrite Hr1]; cbn; rewrite H2, He; reflexivity.
  - intros r1 r2 e x1 x2 x3 H1 Hr1 H2 Hr2 H3 He. unfold_init.
    rewrite Hw, Hl. cbn. rewrite Hp. cbn. rewrite H1.
    destruct r1 as [lt|e1]; [|rewrite Hr1]; cbn; rewrite H2;
      (destruct r2 as [st|e2]; [|rewrite Hr2]; cbn; rewrite H3, He; reflexivity).
Qed.

Lemma init_propagates_other_errors_witness :
  Team.__init__ offline_api (PyInt 10) (PyStr "Maple Leafs")
    (PyStr "Maple Leafs") (PyStr "TOR") "home" (PyStr "N/A") (PyInt 6)
    sample_record_ot (PyStr "20192020") tt = (Raise FeedUnavailable, tt).
Proof.
  refine (proj1 (init_propagates_other_errors offline_api (PyInt 10)
            (PyStr "Maple Leafs") (PyStr "Maple Leafs") (PyStr "TOR") "home"
            (PyStr "N/A") (PyInt 6) sample_record_ot (PyStr "20192020")
            (PyInt 3) (PyInt 1) (PyInt 8) tt _ _ _) FeedUnavailable tt _ _);
    reflexivity.
Defined.

(** ** The team [__init__] returns *)

(** X5: a team that [__init__] returned holds the wins and losses of its
    record and the ["ot"] entry, its points are [(2 * wins) + ot], and it
    starts with five skaters, no score, no shots, no power play, the goalie
    in net, not preferred, and with the record it was given. *)
Theorem init_postcondition {Ext : Type} (api : Team.Api Ext)
    (team_id team_name short_name tri_code : PyVal) (home_away : string)
    (tv_channel games : PyVal) (record : gmap string PyVal) (season : PyVal)
    (x x' : Ext) (tm : Team.t) :
  Team.__init__ api team_id team_name short_name tri_code home_away
    tv_channel games record season x = (Ret tm, x') ->
  record !! "wins" = Some (Team.wins tm) /\
  record !! "losses" = Some (Team.losses tm) /\
  record !! "ot" = Some (Team.ot tm) /\
  Team.calc_points (Team.wins tm) (Team.ot tm) = Ok (Team.points tm) /\
  Team.record tm = record /\
  Team.skaters tm = 5 /\ Team.score tm = 0 /\ Team.shots tm = 0 /\
  Team.power_play tm = false /\ Team.goalie_pulled tm = PyBool false /\
  Team.preferred tm = false /\ Team.overridelines tm = false.
Proof.
  intros Hinit.
  destruct (init_returns_has_ot api _ _ _ _ _ _ _ _ _ _ _ _ Hinit) as [o Hot].
  revert Hinit. unfold_init.
  destruct (record !! "wins") as [w|] eqn:Hw; cbn; [|discriminate].
  destruct (record !! "losses") as [l|] eqn:Hl; cbn; [|discriminate].
  rewrite (record_ot_present_eq _ _ Hot).
  destruct (Team.calc_points w o) as [p|e] eqn:Hp; cbn; [|discriminate].
  repeat (match goal with
          | |- context [match ?r with (_, _) => _ end] =>
              destruct r as [[?|?] ?]; cbn
          | |- context [if ?b then _ else _] => destruct b; cbn
          end; try discriminate).
  all: intros Hret; inversion Hret; subst; cbn; rewrite ?Hot; repeat split;
    assumption.
Qed.

Lemma init_postcondition_witness :
  Team.calc_points (Team.wins (sample_team "Maple Leafs"))
    (Team.ot (sample_team "Maple Leafs")) =
    Ok (Team.points (sample_team "Maple Leafs")).
Proof.
  refine (proj1 (proj2 (proj2 (proj2
    (init_postcondition sample_api (PyInt 10) (PyStr "Maple Leafs")
       (PyStr "Maple Leafs") (PyStr "TOR") "home" (PyStr "N/A") (PyInt 6)
       sample_record_ot (PyStr "20192020") tt tt (sample_team "Maple Leafs")
       _))))).
  reflexivity.
Defined.

(** ** The new record and the new points *)

Section NewRecord.
Context (str_ : PyVal -> string).

Lemma set_record_fields_same (tm : Team.t) :
  Team.set_record_fields (Team.wins tm) (Team.losses tm) (Team.ot tm) tm = tm.
Proof. now destruct tm. Qed.

(** What [get_new_record] leaves: the team with the three counts at most
    rewritten. *)
Lemma get_new_record_frame (outcome : PyVal) (tm : Team.t) :
  exists w l o,
    (Team.get_new_record str_ outcome tm).2 = Team.set_record_fields w l o tm.
Proof.
  unfold Team.get_new_record, bind, get, of_res, modify, ret, raise.
  destruct (Team.outcome_is outcome "win");
    [|destruct (Team.outcome_is outcome "loss");
      [|destruct (Team.outcome_is outcome "ot")]].
  - destruct (Py.add (Team.wins tm) (PyInt 1)); cbn;
      [eauto | exists (Team.wins tm), (Team.losses tm), (Team.ot tm);
               now rewrite set_record_fields_same].
  - destruct (Py.add (Team.losses tm) (PyInt 1)); cbn;
      [eauto | exists (Team.wins tm), (Team.losses tm), (Team.ot tm);
               now rewrite set_record_fields_same].
  - destruct (Py.add (Team.ot tm) (PyInt 1)); cbn;
      [eauto | exists (Team.wins tm), (Team.losses tm), (Team.ot tm);
               now rewrite set_record_fields_same].
  - cbn. exists (Team.wins tm), (Team.losses tm), (Team.ot tm).
    now rewrite set_record_fields_same.
Qed.

Lemma outcome_is_cases (outcome : PyVal) :
  (outcome = PyStr "win" /\ Team.outcome_is outcome "win" = true) \/
  (outcome = PyStr "loss" /\ Team.outcome_is outcome "win" = false /\
   Team.outcome_is outcome "loss" = true) \/
  (outcome = PyStr "ot" /\ Team.outcome_is outcome "win" = false /\
   Team.outcome_is outcome "loss" = false /\
   Team.outcome_is outcome "ot" = true) \/
  (Team.outcome_is outcome "win" = false /\
   Team.outcome_is outcome "loss" = false /\
   Team.outcome_is outcome "ot" = false).
Proof.
  destruct outcome as [| | | |o| |]; try (right; right; right; now repeat split).
  unfold Team.outcome_is.
  destruct (decide (o = "win")) as [->|H1]; [left; now split|].
  destruct (decide (o = "loss")) as [->|H2]; [right; left; now repeat split|].
  destruct (decide (o = "ot")) as [->|H3];
    [right; right; left; now repeat split|].
  right; right; right.
  now rewrite !bool_decide_eq_false_2 by assumption.
Qed.

End NewRecord.



Lemma get_new_record_win (str_ : PyVal -> string) (tm : Team.t) (w : Z) :
  Team.wins tm = PyInt w ->
  Team.get_new_record str_ (PyStr "win") tm =
    (Ret (str_ (PyInt (w + 1)) +:+ " - " +:+ str_ (Team.losses tm) +:+ " - "
          +:+ str_ (Team.ot tm)),
     Team.set_record_fields (PyInt (w + 1)) (Team.losses tm) (Team.ot tm) tm).
Proof.
  intros Hw.
  unfold Team.get_new_record, bind, get, of_res, modify, ret.
  rewrite Hw. reflexivity.
Qed.

(** X7: [get_new_record] updates the record in place and never the
    points: after [n] calls with ["win"] on a team with an integer number
    of wins, the wins are up by [n], while the losses, the overtime losses
    and the points are as they were. *)
Theorem get_new_record_accumulates (str_ : PyVal -> string) (n : nat)
    (tm : Team.t) (w : Z) :
  Team.wins tm = PyInt w ->
  Team.wins (Nat.iter n (fun t => (Team.get_new_record str_ (PyStr "win") t).2) tm)
    = PyInt (w + Z.of_nat n) /\
  Team.losses (Nat.iter n (fun t => (Team.get_new_record str_ (PyStr "win") t).2) tm)
    = Team.losses tm /\
  Team.ot (Nat.iter n (fun t => (Team.get_new_record str_ (PyStr "win") t).2) tm)
    = Team.ot tm /\
  Team.points (Nat.iter n (fun t => (Team.get_new_record str_ (PyStr "win") t).2) tm)
    = Team.points tm.
Proof.
  intros Hw. induction n as [|n (IHw & IHl & IHo & IHp)].
  - cbn. rewrite Hw. repeat split. f_equal. lia.
  - rewrite Nat.iter_succ.
    set (t := Nat.iter n _ tm) in *.
    rewrite (get_new_record_win str_ t _ IHw). cbn.
    repeat split; try assumption. f_equal. lia.
Qed.

Lemma get_new_record_accumulates_witness :
  Team.wins (Nat.iter 2
    (fun t => (Team.get_new_record (fun _ => "?") (PyStr "win") t).2)
    (sample_team "Maple Leafs")) = PyInt (3 + 2) /\
  Team.points (Nat.iter 2
    (fun t => (Team.get_new_record (fun _ => "?") (PyStr "win") t).2)
    (sample_team "Maple Leafs")) = PyInt 8.
Proof.
  destruct (get_new_record_accumulates (fun _ => "?") 2
              (sample_team "Maple Leafs") 3 eq_refl) as (H1 & _ & _ & H2).
  split; [exact H1 | exact H2].
Defined.



(** ** Statistics and rosters that were not available *)

Section MissingData.
Context {Ext : Type} (api : Team.Api Ext).
Context (team_id team_name short_name tri_code : PyVal) (home_away : string).
Context (tv_channel games : PyVal) (record : gmap string PyVal) (season : PyVal).

(** The statistics request fails: the team holds ["N/A"] for both. *)
Lemma init_stats_default (x x' : Ext) (tm : Team.t) :
  Team.__init__ api team_id team_name short_name tri_code home_away
    tv_channel games record season x = (Ret tm, x') ->
  (forall y, exists e y', Team.team_stats_request api team_id y = (Err e, y')) ->
  Team.team_stats tm = PyStr "N/A" /\ Team.rank_stats tm = PyStr "N/A".
Proof.
  intros Hinit Hfail. revert Hinit. unfold_init.
  destruct (record !! "wins") as [w|]; cbn; [|discriminate].
  destruct (record !! "losses") as [l|]; cbn; [|discriminate].
  destruct (Team.calc_points w (Team.record_ot record)) as [p|e]; cbn;
    [|discriminate].
  destruct (Team.lead_trail_request api season team_id x) as [[lt|e1] x1]; cbn;
    [|destruct (Team.index_or_key e1); cbn; [|discriminate]].
  all: destruct (Hfail x1) as (e2 & x2 & Hs); rewrite Hs; cbn;
    (destruct (Team.index_or_key e2); cbn; [|discriminate]);
    (destruct (Team.roster_request api team_id x2) as [[r|e3] x3]; cbn;
     [|destruct (Team.index_or_key e3); cbn; [|discriminate]]);
    intros Hret; inversion Hret; split; reflexivity.
Qed.

(** The roster request fails: the team holds ["N/A"] for its roster. *)
Lemma init_roster_default (x x' : Ext) (tm : Team.t) :
  Team.__init__ api team_id team_name short_name tri_code home_away
    tv_channel games record season x = (Ret tm, x') ->
  (forall y, exists e y', Team.roster_request api team_id y = (Err e, y')) ->
  Team.roster tm = PyStr "N/A".
Proof.
  intros Hinit Hfail. revert Hinit. unfold_init.
  destruct (record !! "wins") as [w|]; cbn; [|discriminate].
  destruct (record !! "losses") as [l|]; cbn; [|discriminate].
  destruct (Team.calc_points w (Team.record_ot record)) as [p|e]; cbn;
    [|discriminate].
  destruct (Team.lead_trail_request api season team_id x) as [[lt|e1] x1]; cbn;
    [|destruct (Team.index_or_key e1); cbn; [|discriminate]].
  all: destruct (Team.team_stats_request api team_id x1) as [[st|e2] x2]; cbn;
    [|destruct (Team.index_or_key e2); cbn; [|discriminate]].
  all: destruct (Hfail x2) as (e3 & x3 & Hr); rewrite Hr; cbn;
    (destruct (Team.index_or_key e3); cbn; [|discriminate]);
    intros Hret; inversion Hret; reflexivity.
Qed.

End MissingData.

Lemma get_stat_and_rank_of_str (tm : Team.t) (s attr : string) :
  Team.team_stats tm = PyStr s ->
  Team.get_stat_and_rank tm attr = Err TypeError.
Proof. intros H. unfold Team.get_stat_and_rank. now rewrite H. Qed.



(** ** The roster dictionaries *)

Section RosterDicts.
Context (key_eqb : PyVal -> PyVal -> bool).

Lemma dict_set_Ok {V} (d d' : list (PyVal * V)) (k : PyVal) (v : V) :
  Team.dict_set key_eqb d k v = Ok d' ->
  Py.hashable k = true /\
  (length d' <= S (length d))%nat /\
  (forall k', k' ∈ d'.*1 -> k' ∈ d.*1 \/ k' = k).
Proof.
  unfold Team.dict_set. destruct (Py.hashable k); [|discriminate].
  intros H. inversion H as [Hd]. clear H. split; [reflexivity|].
  destruct (existsb _ d).
  - split.
    + rewrite length_map. lia.
    + intros k' Hk'. left.
      assert (Heq : (map (fun p : PyVal * V => if key_eqb p.1 k then (p.1, v) else p) d).*1
                    = d.*1).
      { clear. induction d as [|[a b] d IH]; [reflexivity|].
        cbn. rewrite IH. now destruct (key_eqb a k). }
      now rewrite Heq in Hk'.
  - split.
    + rewrite length_app. cbn. lia.
    + intros k' Hk'. rewrite fmap_app in Hk'. cbn in Hk'.
      apply elem_of_app in Hk' as [Hk'|Hk']; [now left|].
      right. now apply list_elem_of_singleton in Hk'.
Qed.

Lemma dict_set_hashable {V} (d : list (PyVal * V)) (k : PyVal) (v : V) :
  Py.hashable k = true -> exists d', Team.dict_set key_eqb d k v = Ok d'.
Proof. intros H. unfold Team.dict_set. rewrite H. eauto. Qed.

Lemma get_Ok_inv (v r : PyVal) (k : string) :
  Py.get v k = Ok r -> exists d, v = PyDict d /\ r = default PyNone (d !! k).
Proof.
  destruct v; cbn; try discriminate. intros H. inversion H. eauto.
Qed.

Lemma get_Err (v : PyVal) (k : string) (e : PyExc) :
  Py.get v k = Err e -> e = AttributeError /\ forall d, v <> PyDict d.
Proof.
  destruct v; cbn; intros H; inversion H; split; try reflexivity;
    intros d0; discriminate.
Qed.

(** A roster entry has a person to read from, and only a roster entry. *)
Lemma roster_entry_iff (player : PyVal) :
  roster_entry player <->
  exists person dperson,
    Py.get player "person" = Ok person /\ person = PyDict dperson.
Proof.
  split.
  - intros (dp & dperson & -> & Hp). exists (PyDict dperson), dperson.
    cbn. now rewrite Hp.
  - intros (person & dperson & Hg & ->).
    apply get_Ok_inv in Hg as (dp & -> & Hd).
    exists dp, dperson. split; [reflexivity|].
    destruct (dp !! "person") as [v|]; cbn in Hd; [now subst | discriminate].
Qed.

(** One pass of the loop of [roster_dict_by_name]. *)
Lemma by_name_step_spec (d : list (PyVal * gmap string PyVal)) (player : PyVal) :
  match Team.by_name_step key_eqb d player with
  | Ok d' =>
      usable full_name player /\
      (length d' <= S (length d))%nat /\
      (forall k, k ∈ d'.*1 -> k ∈ d.*1 \/ k = full_name player)
  | Err e =>
      (e = AttributeError /\ ~ roster_entry player) \/
      (e = TypeError /\ roster_entry player /\
       Py.hashable (full_name player) = false)
  end.
Proof.
  unfold Team.by_name_step, Team.res_bind, usable, full_name.
  destruct (Py.get player "person") as [person|e] eqn:Hp.
  2: { left. apply get_Err in Hp as [-> Hn]. split; [reflexivity|].
       intros (dp & dperson & Heq & _). exact (Hn _ Heq). }
  destruct (Py.get person "id") as [id|e] eqn:Hi.
  2: { left. apply get_Err in Hi as [-> Hn]. split; [reflexivity|].
       intros Hre. apply roster_entry_iff in Hre as (p' & dperson & Hg & ->).
       rewrite Hp in Hg. inversion Hg. subst. exact (Hn _ eq_refl). }
  apply get_Ok_inv in Hi as (dperson & -> & ->).
  assert (Hre : roster_entry player).
  { apply roster_entry_iff. eauto. }
  cbn [Py.get].
  apply get_Ok_inv in Hp as Hp'. destruct Hp' as (dp & -> & Hpd).
  cbn [Py.get].
  destruct (Team.dict_set key_eqb d (default PyNone (dperson !! "fullName")) _)
    as [d'|e] eqn:Hs.
  - apply dict_set_Ok in Hs as (Hh & Hlen & Hkeys). repeat split; auto.
  - right. unfold Team.dict_set in Hs.
    destruct (Py.hashable (default PyNone (dperson !! "fullName"))) eqn:Hh;
      [discriminate|]. inversion Hs. auto.
Qed.

(** One pass of the loop of [roster_dict_by_number]. *)
Lemma by_number_step_spec (d : list (PyVal * gmap string PyVal)) (player : PyVal) :
  match Team.by_number_step key_eqb d player with
  | Ok d' =>
      usable jersey_number player /\
      (length d' <= S (length d))%nat /\
      (forall k, k ∈ d'.*1 -> k ∈ d.*1 \/ k = jersey_number player)
  | Err e =>
      (e = AttributeError /\ ~ roster_entry player) \/
      (e = TypeError /\ roster_entry player /\
       Py.hashable (jersey_number player) = false)
  end.
Proof.
  unfold Team.by_number_step, Team.res_bind, usable, jersey_number.
  destruct (Py.get player "person") as [person|e] eqn:Hp.
  2: { left. apply get_Err in Hp as [-> Hn]. split; [reflexivity|].
       intros (dp & dperson & Heq & _). exact (Hn _ Heq). }
  destruct (Py.get person "id") as [id|e] eqn:Hi.
  2: { left. apply get_Err in Hi as [-> Hn]. split; [reflexivity|].
       intros Hre. apply roster_entry_iff in Hre as (p' & dperson & Hg & ->).
       rewrite Hp in Hg. inversion Hg. subst. exact (Hn _ eq_refl). }
  apply get_Ok_inv in Hi as (dperson & -> & ->).
  assert (Hre : roster_entry player).
  { apply roster_entry_iff. eauto. }
  cbn [Py.get].
  apply get_Ok_inv in Hp as Hp'. destruct Hp' as (dp & -> & Hpd).
  cbn [Py.get].
  destruct (Team.dict_set key_eqb d (default PyNone (dp !! "jerseyNumber")) _)
    as [d'|e] eqn:Hs.
  - apply dict_set_Ok in Hs as (Hh & Hlen & Hkeys). repeat split; auto.
  - right. unfold Team.dict_set in Hs.
    destruct (Py.hashable (default PyNone (dp !! "jerseyNumber"))) eqn:Hh;
      [discriminate|]. inversion Hs. auto.
Qed.

End RosterDicts.

Section ForEach.
Context {D : Type} (step : list (PyVal * D) -> PyVal -> Res (list (PyVal * D))).
Context (key : PyVal -> PyVal).

Hypothesis step_spec : forall d player,
  match step d player with
  | Ok d' =>
      usable key player /\
      (length d' <= S (length d))%nat /\
      (forall k, k ∈ d'.*1 -> k ∈ d.*1 \/ k = key player)
  | Err e =>
      (e = AttributeError /\ ~ roster_entry player) \/
      (e = TypeError /\ roster_entry player /\ Py.hashable (key player) = false)
  end.

Lemma for_each_spec (players : list PyVal) : forall d,
  match Team.for_each step d players with
  | Ok d' =>
      Forall (usable key) players /\
      (length d' <= length d + length players)%nat /\
      (forall k, k ∈ d'.*1 ->
         k ∈ d.*1 \/ exists p, p ∈ players /\ k = key p)
  | Err e =>
      ~ Forall (usable key) players /\ (e = AttributeError \/ e = TypeError)
  end.
Proof.
  induction players as [|player rest IH]; intros d; cbn [Team.for_each].
  - split; [constructor|]. split; [cbn; lia | auto].
  - pose proof (step_spec d player) as Hs.
    destruct (step d player) as [d1|e].
    + destruct Hs as (Hu & Hlen & Hkeys). specialize (IH d1).
      destruct (Team.for_each step d1 rest) as [d'|e].
      * destruct IH as (Hall & Hlen' & Hkeys'). split; [now constructor|].
        split; [cbn; lia|].
        intros k Hk. destruct (Hkeys' k Hk) as [Hin|(p & Hp & ->)].
        -- destruct (Hkeys k Hin) as [Hd| ->]; [now left|].
           right. exists player. split; [apply elem_of_cons; now left | reflexivity].
        -- right. exists p. split; [apply elem_of_cons; now right | reflexivity].
      * destruct IH as [Hn He]. split; [|exact He].
        intros Hall. apply Hn. now inversion Hall.
    + split.
      * intros Hall. inversion Hall as [|? ? [Hre Hh] _]; subst.
        destruct Hs as [[_ Hn]|(_ & _ & Hf)]; [now apply Hn | congruence].
      * destruct Hs as [[-> _]|[-> _]]; auto.
Qed.

End ForEach.



(** X11: when the roster is a list, [roster_dict_by_name] returns a dict
    exactly when every entry is a dict whose ["person"] is a dict and whose
    full name can be a key; the dict then has at most one entry per player,
    each under the full name of a player.  Otherwise it raises
    [AttributeError] or [TypeError].  [roster_dict_by_number] is the same
    with the jersey number for the key. *)
Theorem roster_dicts_of_list (key_eqb : PyVal -> PyVal -> bool) (tm : Team.t)
    (players : list PyVal) :
  Team.roster tm = PyList players ->
  match Team.roster_dict_by_name key_eqb tm with
  | Ok d =>
      Forall (usable full_name) players /\
      (length d <= length players)%nat /\
      (forall k, k ∈ d.*1 -> exists p, p ∈ players /\ k = full_name p)
  | Err e =>
      ~ Forall (usable full_name) players /\
      (e = AttributeError \/ e = TypeError)
  end /\
  match Team.roster_dict_by_number key_eqb tm with
  | Ok d =>
      Forall (usable jersey_number) players /\
      (length d <= length players)%nat /\
      (forall k, k ∈ d.*1 -> exists p, p ∈ players /\ k = jersey_number p)
  | Err e =>
      ~ Forall (usable jersey_number) players /\
      (e = AttributeError \/ e = TypeError)
  end.
Proof.
  intros Hr. unfold Team.roster_dict_by_name, Team.roster_dict_by_number.
  rewrite Hr. cbn [Py.iter Team.res_bind]. split.
  - pose proof (for_each_spec (Team.by_name_step key_eqb) full_name
                  (by_name_step_spec key_eqb) players []) as H.
    destruct (Team.for_each (Team.by_name_step key_eqb) [] players) as [d|e];
      [|exact H].
    destruct H as (Hall & Hlen & Hkeys). split; [exact Hall|].
    split; [exact Hlen|].
    intros k Hk. destruct (Hkeys k Hk) as [Hin|Hp]; [|exact Hp].
    cbn in Hin. now apply elem_of_nil in Hin.
  - pose proof (for_each_spec (Team.by_number_step key_eqb) jersey_number
                  (by_number_step_spec key_eqb) players []) as H.
    destruct (Team.for_each (Team.by_number_step key_eqb) [] players) as [d|e];
      [|exact H].
    destruct H as (Hall & Hlen & Hkeys). split; [exact Hall|].
    split; [exact Hlen|].
    intros k Hk. destruct (Hkeys k Hk) as [Hin|Hp]; [|exact Hp].
    cbn in Hin. now apply elem_of_nil in Hin.
Qed.

Lemma roster_dicts_of_list_witness :
  match Team.roster_dict_by_name str_key_eqb (sample_team_of (PyList sample_roster)) with
  | Ok d =>
      Forall (usable full_name) sample_roster /\
      (length d <= length sample_roster)%nat /\
      (forall k, k ∈ d.*1 -> exists p, p ∈ sample_roster /\ k = full_name p)
  | Err e =>
      ~ Forall (usable full_name) sample_roster /\
      (e = AttributeError \/ e = TypeError)
  end.
Proof.
  exact (proj1 (roster_dicts_of_list str_key_eqb
                  (sample_team_of (PyList sample_roster)) sample_roster eq_refl)).
Defined.

(** The dict of the sample roster, by number. *)
Example roster_by_number_sample :
  Team.roster_dict_by_number str_key_eqb (sample_team_of (PyList sample_roster)) =
    Ok [(PyStr "34", {[ "id" := PyInt 8479318; "name" := PyStr "Auston Matthews" ]});
        (PyStr "16", {[ "id" := PyInt 8478483; "name" := PyStr "Mitchell Marner" ]})].
Proof. vm_compute. reflexivity. Qed.

(** ** The goalie *)

(** X12: [goalie_pulled_setter] reports the moment the goalie is pulled and
    nothing else: in a series of calls on the same team, a call returns
    [True] exactly when its value is [True] and the value before it (the one
    of the call before, or the one the team held at first) is [False]. *)
Theorem goalie_pulled_calls_rising_edge (vs : list PyVal) :
  forall (tm : Team.t) (i : nat),
    goalie_pulled_calls tm vs !! i = Some true <->
    vs !! i = Some (PyBool true) /\
    (Team.goalie_pulled tm :: vs) !! i = Some (PyBool false).
Proof.
  induction vs as [|v rest IH]; intros tm i.
  - cbn. split; [discriminate | intros [H _]; discriminate].
  - destruct i as [|j]; cbn [goalie_pulled_calls lookup list_lookup].
    + unfold Team.goalie_pulled_setter. cbn [fst].
      split.
      * intros H. inversion H as [Hb].
        apply andb_true_iff in Hb as [H1 H2].
        apply is_True_spec in H1. apply is_False_spec in H2.
        now rewrite H1, H2.
      * intros [H1 H2]. inversion H1. inversion H2. subst.
        match goal with H : _ = PyBool false |- _ => rewrite H end.
        reflexivity.
    + rewrite (IH (Team.goalie_pulled_setter tm v).2 j). reflexivity.
Qed.

(** * Further properties of app.py *)

(** ** The sleep of an iteration *)

Lemma sleeps_app (tr1 tr2 : list Event) :
  sleeps (tr1 ++ tr2) = sleeps tr1 ++ sleeps tr2.
Proof. unfold sleeps. apply omap_app. Qed.

Lemma sleeps_snoc_sleep (tr : list Event) (secs : N) :
  sleeps (tr ++ [EvSleep secs]) = sleeps tr ++ [secs].
Proof. now rewrite sleeps_app. Qed.

Lemma sleeps_snoc_log (tr : list Event) (lvl : LogLevel) :
  sleeps (tr ++ [EvLog lvl]) = sleeps tr.
Proof. rewrite sleeps_app. unfold sleeps at 2. cbn. apply app_nil_r. Qed.

Lemma sleeps_snoc_call (tr : list Event) (f : Callee) :
  sleeps (tr ++ [EvCall f]) = sleeps tr.
Proof. rewrite sleeps_app. unfold sleeps at 2. cbn. apply app_nil_r. Qed.

Ltac sleeps_norm :=
  repeat first [ rewrite sleeps_snoc_sleep | rewrite sleeps_snoc_log
               | rewrite sleeps_snoc_call ].

(** X13: an iteration of the loop that returns has slept exactly once, and
    an iteration that raises or exits has not slept: the loop never spins
    without a sleep.  The duration is the value [game_preview_others]
    returned in Preview before the start time, the pregame sleep time in
    Preview past the start time, the live sleep time in Live and for an
    unknown state, and the final sleep time in Final. *)
Theorem every_iteration_sleeps_once {Ext : Type} (config : Config)
    (c : Collab Ext) (w : World Ext) :
  match (loop_body config c w).1 with
  | Ret _ =>
      exists secs : N,
        sleeps (trace (loop_body config c w).2.2) = sleeps (trace w.2) ++ [secs] /\
        sleep_due config c w secs
  | _ => sleeps (trace (loop_body config c w).2.2) = sleeps (trace w.2)
  end.
Proof.
  unfold sleep_due.
  destruct (GameState (game_state w.1)) eqn:Hst.
  - rewrite (loop_body_PREVIEW config c w Hst). unfold preview_branch.
    destruct (0 <? game_time_countdown w.1)%Z.
    + unfold_loop. cbn.
      destruct (pregametweets w.1 !! "core") as [[]|]; cbn.
      * destruct (game_preview_others c w.1 (ext w.2)) as [[secs|e] [g1 x1]] eqn:Ho;
          cbn; sleeps_norm; [|reflexivity].
        exists secs. split; [reflexivity|].
        exists w.1, (ext w.2). rewrite Ho. now split.
      * destruct (generate_game_preview c w.1 (ext w.2)) as [[[]|e] [g1 x1]] eqn:Hg;
          cbn; sleeps_norm; [|reflexivity].
        destruct (game_preview_others c g1 x1) as [[secs|e] [g2 x2]] eqn:Ho;
          cbn; sleeps_norm; [|reflexivity].
        exists secs. split; [reflexivity|].
        exists g1, x1. rewrite Ho. now split.
      * sleeps_norm. reflexivity.
    + unfold_loop. cbn. repeat split_call; sleeps_norm; eauto.
  - rewrite (loop_body_LIVE config c w Hst).
    unfold_loop. cbn. repeat split_call; sleeps_norm; eauto.
  - rewrite (loop_body_FINAL config c w Hst).
    unfold_loop. cbn. repeat split_call; sleeps_norm; eauto.
    all: match goal with
         | |- context [if ?b then _ else _] => destruct b
         end; cbn; sleeps_norm; eauto.
  - rewrite (loop_body_UNKNOWN config c w Hst), unknown_branch_eq. cbn.
    exists (live_sleep_time config). split; [|reflexivity].
    rewrite sleeps_app. reflexivity.
Qed.

(** ** A game that stays live *)

Section StaysLive.
Context {Ext : Type} (config : Config) (c : Collab Ext).
Context (Hkeeps : keeps_live c).

Lemma live_iteration_goes_on (w : World Ext) :
  live_or_unknown w.1 ->
  exists w' : World Ext,
    loop_body config c w = (Ret tt, w') /\
    live_or_unknown w'.1 /\
    sleeps (trace w'.2) = sleeps (trace w.2) ++ [live_sleep_time config].
Proof.
  intros [Hst|Hst].
  - rewrite (loop_body_LIVE config c w Hst).
    destruct (get_livefeed c (game_id w.1) (ext w.2)) as [[resp|e] x1] eqn:Hf.
    2: { eexists. split; [eapply live_branch_fetch_raises; exact Hf|].
         cbn. split; [now left|].
         rewrite sleeps_app. reflexivity. }
    destruct (Hkeeps resp w.1 x1 (or_introl Hst)) as [Hl _].
    destruct (live_loop c resp w.1 x1) as [[[]|e] [g1 x2]] eqn:Hll.
    2: { eexists. split; [eapply live_branch_live_loop_raises; eassumption|].
         cbn. split; [exact Hl|]. rewrite sleeps_app. reflexivity. }
    destruct (Hkeeps resp g1 x2 Hl) as [_ Hu].
    destruct (update_game c resp g1 x2) as [[[]|e] [g2 x3]] eqn:Hup.
    + eexists. split; [eapply live_branch_completes; eassumption|].
      cbn. split; [exact Hu|]. rewrite sleeps_app. reflexivity.
    + eexists. split; [eapply live_branch_update_raises; eassumption|].
      cbn. split; [exact Hu|]. rewrite sleeps_app. reflexivity.
  - rewrite (loop_body_UNKNOWN config c w Hst), unknown_branch_eq.
    eexists. split; [reflexivity|]. cbn. split; [now right|].
    rewrite sleeps_app. reflexivity.
Qed.

Lemma live_loop_goes_on (fuel : nat) : forall w : World Ext,
  live_or_unknown w.1 ->
  exists w' : World Ext,
    start_game_loop config c fuel w = (Ret tt, w') /\
    live_or_unknown w'.1 /\
    sleeps (trace w'.2) =
      sleeps (trace w.2) ++ replicate fuel (live_sleep_time config).
Proof.
  induction fuel as [|n IH]; intros w Hw.
  - exists w. cbn. split; [reflexivity|]. split; [exact Hw|].
    now rewrite app_nil_r.
  - destruct (live_iteration_goes_on w Hw) as (w1 & Hb & Hw1 & Hs1).
    destruct (IH w1 Hw1) as (w' & Hl & Hw' & Hs').
    exists w'. rewrite (start_game_loop_Ret config c n _ _ Hb).
    split; [exact Hl|]. split; [exact Hw'|].
    rewrite Hs', Hs1, <- app_assoc. reflexivity.
Qed.

End StaysLive.


Lemma raising_collab_keeps_live :
  keeps_live (sample_collab feed_up writes_then_raises writes_then_raises).
Proof. intros resp g x Hg. split; exact Hg. Qed.


(** ** Preview before the start time *)

(** X15: a Preview iteration before the start time reads no feed and does
    not update the game: neither [get_livefeed] nor [update_game] is
    called, whatever else happens; and when the pregame ledger has no
    ["core"] entry, the iteration raises [KeyError] after its log line,
    with nothing called and the game untouched. *)
Theorem preview_waits_without_feed {Ext : Type} (config : Config)
    (c : Collab Ext) (w : World Ext) :
  GameState (game_state w.1) = PREVIEW ->
  0 < game_time_countdown w.1 ->
  calls_of call_get_livefeed (trace (loop_body config c w).2.2) =
    calls_of call_get_livefeed (trace w.2) /\
  calls_of call_update_game (trace (loop_body config c w).2.2) =
    calls_of call_update_game (trace w.2) /\
  (pregametweets w.1 !! "core" = None ->
   loop_body config c w =
     (Raise KeyError, (w.1, mkSys (ext w.2) (trace w.2 ++ [EvLog INFO])))).
Proof.
  intros Hst Hcd. rewrite loop_body_PREVIEW by exact Hst.
  unfold preview_branch. apply Z.ltb_lt in Hcd. rewrite Hcd.
  unfold_loop. cbn.
  destruct (pregametweets w.1 !! "core") as [[]|]; cbn.
  - repeat split_call; rewrite ?calls_of_snoc_other by discriminate;
      (split; [reflexivity|split; [reflexivity|discriminate]]).
  - repeat split_call; rewrite ?calls_of_snoc_other by discriminate;
      (split; [reflexivity|split; [reflexivity|discriminate]]).
  - rewrite ?calls_of_snoc_other by discriminate.
    split; [reflexivity|split; [reflexivity|reflexivity]].
Qed.

Lemma preview_waits_without_feed_witness :
  calls_of call_get_livefeed
    (trace (loop_body sample_config always_failed
              (sample_game "Preview" 3600 false 0, mkSys tt [])).2.2) =
    calls_of call_get_livefeed [].
Proof.
  apply (preview_waits_without_feed sample_config always_failed
           (sample_game "Preview" 3600 false 0, mkSys tt [])).
  - reflexivity.
  - reflexivity.
Defined.

(** ** Calls that raise outside the Live branch *)

(** X16: in the Final branch nothing is caught: when [final_score] raises,
    [three_stars] and [nst_linetool] are not called, no retry is counted,
    the loop does not sleep, and the exception leaves [start_game_loop]
    with the game as [final_score] left it. *)
Theorem final_score_failure_ends_the_loop {Ext : Type} (config : Config)
    (c : Collab Ext) (fuel : nat) (w : World Ext) (resp : PyVal)
    (x1 x2 x3 : Ext) (g1 g2 : Game) (e : PyExc) :
  GameState (game_state w.1) = FINAL ->
  get_livefeed c (game_id w.1) (ext w.2) = (Ok resp, x1) ->
  update_game c resp w.1 x1 = (Ok tt, (g1, x2)) ->
  final_score c resp g1 x2 = (Err e, (g2, x3)) ->
  start_game_loop config c (S fuel) w =
    (Raise e,
     (g2, mkSys x3
            (trace w.2 ++ [EvLog INFO; EvCall call_get_livefeed;
                           EvCall call_update_game; EvCall call_final_score]))).
Proof.
  intros Hst Hf Hu Hs. apply start_game_loop_Raise.
  rewrite loop_body_FINAL by exact Hst.
  unfold_loop. cbn. rewrite Hf. cbn. rewrite Hu. cbn. rewrite Hs. cbn.
  now rewrite <- !app_assoc.
Qed.

Lemma final_score_failure_ends_the_loop_witness :
  start_game_loop sample_config final_score_raises 4
    (sample_game "Final" 0 false 0, mkSys tt []) =
    (Raise (OtherError "TweepError"),
     (sample_game "Final" 0 false 0,
      mkSys tt ([] ++ [EvLog INFO; EvCall call_get_livefeed;
                       EvCall call_update_game; EvCall call_final_score]))).
Proof.
  apply (final_score_failure_ends_the_loop sample_config final_score_raises 3
           (sample_game "Final" 0 false 0, mkSys tt []) (PyDict ∅) tt tt tt
           (sample_game "Final" 0 false 0)); reflexivity.
Defined.

(** X17: in the Preview branch nothing is caught either: when the core
    notification is due and [generate_game_preview] raises,
    [game_preview_others] is not called, the loop does not sleep, and the
    exception leaves [start_game_loop]. *)
Theorem preview_failure_ends_the_loop {Ext : Type} (config : Config)
    (c : Collab Ext) (fuel : nat) (w : World Ext) (g1 : Game) (x1 : Ext)
    (e : PyExc) :
  GameState (game_state w.1) = PREVIEW ->
  0 < game_time_countdown w.1 ->
  pregametweets w.1 !! "core" = Some false ->
  generate_game_preview c w.1 (ext w.2) = (Err e, (g1, x1)) ->
  start_game_loop config c (S fuel) w =
    (Raise e,
     (g1, mkSys x1
            (trace w.2 ++ [EvLog INFO; EvCall call_generate_game_preview]))).
Proof.
  intros Hst Hcd Hflag Hg. apply start_game_loop_Raise.
  rewrite loop_body_PREVIEW by exact Hst.
  unfold preview_branch. apply Z.ltb_lt in Hcd. rewrite Hcd.
  unfold_loop. cbn. rewrite Hflag. cbn. rewrite Hg. cbn.
  now rewrite <- !app_assoc.
Qed.

Lemma preview_failure_ends_the_loop_witness :
  start_game_loop sample_config final_score_raises 4
    (sample_game "Preview" 3600 false 0, mkSys tt []) =
    (Raise (OtherError "TweepError"),
     (sample_game "Preview" 3600 false 0,
      mkSys tt ([] ++ [EvLog INFO; EvCall call_generate_game_preview]))).
Proof.
  apply (preview_failure_ends_the_loop sample_config final_score_raises 3
           (sample_game "Preview" 3600 false 0, mkSys tt [])
           (sample_game "Preview" 3600 false 0) tt); reflexivity.
Defined.

(** ** The script runner *)

(** X18: [run] returns a game only when the schedule has one for the date.
    When [run] ends the process, either the schedule has none and the exit
    is [sys.exit()] right after the schedule was asked, with no code and
    nothing done since, or a function of another module that [run] called
    (the configuration loader, the command-line parser, the logging setup,
    the date parser, the schedule, the [Game] constructor, the roster
    update) ended it, and its code is passed on. *)
Theorem run_follows_the_schedule {Ext : Type}
    (py_eq : PyVal -> PyVal -> bool) (api : Team.Api Ext) (st : Startup Ext)
    (s s' : Sys Ext) :
  (forall game : Game,
     run py_eq api st s = (Ret game, s') ->
     exists (team_name : PyVal) (args : Args) (date game_info : PyVal)
            (s1 : Sys Ext) (x2 : Ext),
       run_date st s = (Ret (team_name, args, date), s1) /\
       is_game_today st 1 date (ext s1) = (Ret (true, game_info), x2)) /\
  (forall code : option Z,
     run py_eq api st s = (SysExit code, s') ->
     (exists (team_name : PyVal) (args : Args) (date game_info : PyVal)
             (s1 : Sys Ext) (x2 : Ext),
        run_date st s = (Ret (team_name, args, date), s1) /\
        is_game_today st 1 date (ext s1) = (Ret (false, game_info), x2) /\
        code = None /\ s' = mkSys x2 (trace s1)) \/
     startup_exits st code).
Proof.
  split; [|intros code; apply run_exit_cases].
  intros game. unfold run, bind.
  destruct (run_date st s) as [[[[team_name args] date]|e|code0] s1] eqn:Hd;
    try discriminate.
  unfold on_ext. cbn [fst snd].
  destruct (is_game_today st 1 date (ext s1)) as [[[today info]|e|code0] x2] eqn:Ht;
    try discriminate.
  destruct today; cbn [negb fst snd]; [|discriminate].
  intros _. exists team_name, args, date, info, s1, x2. now split.
Qed.

(** ** A Live iteration that completes *)

(** X19: in a Live iteration in which nothing raises, the feed is read
    once, [live_loop] works on the game as the iteration found it,
    [update_game] then applies the same response to the game as [live_loop]
    left it, and the loop sleeps for the live sleep time. *)
Theorem live_iteration_completes {Ext : Type} (config : Config)
    (c : Collab Ext) (w : World Ext) (resp : PyVal) (x1 x2 x3 : Ext)
    (g1 g2 : Game) :
  GameState (game_state w.1) = LIVE ->
  get_livefeed c (game_id w.1) (ext w.2) = (Ok resp, x1) ->
  live_loop c resp w.1 x1 = (Ok tt, (g1, x2)) ->
  update_game c resp g1 x2 = (Ok tt, (g2, x3)) ->
  loop_body config c w =
    (Ret tt,
     (g2, mkSys x3
            (trace w.2 ++ [EvLog INFO; EvLog INFO; EvCall call_get_livefeed;
                           EvCall call_live_loop; EvCall call_update_game;
                           EvLog INFO; EvSleep (live_sleep_time config)]))).
Proof.
  intros Hst Hf Hl Hu. rewrite loop_body_LIVE by exact Hst.
  unfold_loop. cbn. rewrite Hf. cbn. rewrite Hl. cbn. rewrite Hu. cbn.
  now rewrite <- !app_assoc.
Qed.

Lemma live_iteration_completes_witness :
  loop_body sample_config always_failed
    (sample_game "Live" 0 false 0, mkSys tt []) =
    (Ret tt,
     (sample_game "Live" 0 false 0,
      mkSys tt ([] ++ [EvLog INFO; EvLog INFO; EvCall call_get_livefeed;
                       EvCall call_live_loop; EvCall call_update_game;
                       EvLog INFO; EvSleep (live_sleep_time sample_config)]))).
Proof.
  apply (live_iteration_completes sample_config always_failed
           (sample_game "Live" 0 false 0, mkSys tt []) (PyDict ∅) tt tt tt
           (sample_game "Live" 0 false 0)); reflexivity.
Defined.
